(** * airtable-typegen: the schema-to-code translation engine

    A shallow embedding of the generator's core: the two dialect type mappers
    of [utils/field-mappings.ts] ([getZodType], [getTsType]) and the table
    selection and the two code assemblers of the command class
    ([getTableMetadata], [generateZodSchemas], [generateTSDefinitions]).

    JavaScript strings are [string]; arrays are [list]; a property that may be
    missing is an [option]; a thrown exception is the [Throw] branch of
    [result].  Code that the sources import but do not contain (the
    [change-case] library, [utils/helpers.ts], the cell-format table of
    [schemas/fields.ts]) is a [Variable] of the section that embeds its
    callers. *)

From Stdlib Require Import String Ascii List ZArith Bool Arith Lia.
From Stdlib Require Import DecimalString DecimalNat.
Import ListNotations.
Open Scope string_scope.

(** ** Exceptions *)

(** [Error msg] is [throw new Error(msg)]; [TypeError] is what reading a
    property of [undefined] raises; [CLIError msg] is oclif's
    [this.error(msg, { exit: 1 })]. *)
Inductive exn : Type :=
| Error (message : string)
| TypeError
| CLIError (message : string).

Inductive result (A : Type) : Type :=
| Ok (a : A)
| Throw (e : exn).

Arguments Ok {A} a.
Arguments Throw {A} e.

Definition bind {A B : Type} (r : result A) (k : A -> result B) : result B :=
  match r with
  | Ok a => k a
  | Throw e => Throw e
  end.

Notation "x <- r ;; k" := (bind r (fun x => k))
  (at level 61, r at next level, right associativity).

(** List concatenation, written apart from the [++] of strings. *)
Infix "+++" := app (right associativity, at level 60).

(** A loop whose body may throw: the first exception wins, in loop order. *)
Fixpoint mapM {A B : Type} (f : A -> result B) (l : list A) : result (list B) :=
  match l with
  | [] => Ok []
  | a :: l' => b <- f a ;; bs <- mapM f l' ;; Ok (b :: bs)
  end.

(** ** Metadata *)

Record Choice : Type := { choice_name : string }.

(** [options.result]; its [type] may be missing. *)
Record FieldResult : Type := { result_type : option string }.

(** The tag-specific options; every property may be missing. *)
Record FieldOptions : Type := {
  precision : option Z;
  choices : option (list Choice);
  linkedTableId : option string;
  options_result : option FieldResult
}.

Record FieldMetadata : Type := {
  field_name : string;
  field_type : string;
  field_options : option FieldOptions
}.

Record TableMetadata : Type := {
  table_id : string;
  table_name : string;
  table_fields : list FieldMetadata
}.

Record BaseMetadata : Type := {
  base_id : string;
  base_name : string
}.

Record TsOptions : Type := { useAirtableLibraryTypes : bool }.

(** ** The closed enumeration of field-type tags *)

Inductive FieldType : Type :=
| aiText | autoNumber | barcode | button | checkbox | count | createdBy
| createdTime | currency | date | dateTime | duration | email
| externalSyncSource | formula | lastModifiedBy | lastModifiedTime
| multilineText | multipleAttachments | multipleCollaborators
| multipleLookupValues | multipleRecordLinks | multipleSelects | number
| percent | phoneNumber | rating | richText | rollup | singleCollaborator
| singleLineText | singleSelect | url.

(** The [case] labels of the two [switch (field.type)] statements. *)
Definition FieldTypeTags : list (string * FieldType) :=
  [ ("aiText", aiText); ("autoNumber", autoNumber); ("barcode", barcode);
    ("button", button); ("checkbox", checkbox); ("count", count);
    ("createdBy", createdBy); ("createdTime", createdTime);
    ("currency", currency); ("date", date); ("dateTime", dateTime);
    ("duration", duration); ("email", email);
    ("externalSyncSource", externalSyncSource); ("formula", formula);
    ("lastModifiedBy", lastModifiedBy);
    ("lastModifiedTime", lastModifiedTime);
    ("multilineText", multilineText);
    ("multipleAttachments", multipleAttachments);
    ("multipleCollaborators", multipleCollaborators);
    ("multipleLookupValues", multipleLookupValues);
    ("multipleRecordLinks", multipleRecordLinks);
    ("multipleSelects", multipleSelects); ("number", number);
    ("percent", percent); ("phoneNumber", phoneNumber); ("rating", rating);
    ("richText", richText); ("rollup", rollup);
    ("singleCollaborator", singleCollaborator);
    ("singleLineText", singleLineText); ("singleSelect", singleSelect);
    ("url", url) ].

Fixpoint lookupTag (tags : list (string * FieldType)) (s : string)
  : option FieldType :=
  match tags with
  | [] => None
  | (k, v) :: tags' => if String.eqb s k then Some v else lookupTag tags' s
  end.

(** Which [case] a raw tag selects; [None] falls out of the [switch]. *)
Definition switchOnType (s : string) : option FieldType :=
  lookupTag FieldTypeTags s.

Definition inEnumeration (s : string) : Prop :=
  In s (map fst FieldTypeTags).

(** ** String helpers *)

Definition newline : string := String (ascii_of_nat 10) "".

(** [Array.prototype.join]. *)
Fixpoint join (sep : string) (l : list string) : string :=
  match l with
  | [] => ""
  | [s] => s
  | s :: l' => s ++ sep ++ join sep l'
  end.

(** [Array.prototype.includes] on an array of strings. *)
Definition includes (l : list string) (s : string) : bool :=
  existsb (String.eqb s) l.

(** [Array.prototype.pop] read as "the last element, if any". *)
Fixpoint pop {A : Type} (l : list A) : option A :=
  match l with
  | [] => None
  | [a] => Some a
  | _ :: l' => pop l'
  end.

Definition unrecognized (field : FieldMetadata) : exn :=
  Error ("Unrecognized field type: " ++ field_type field
         ++ " (on field '" ++ field_name field ++ "')").

(** [field.options.choices], throwing when either property is missing. *)
Definition fieldChoices (field : FieldMetadata) : result (list Choice) :=
  match field_options field with
  | None => Throw TypeError
  | Some o =>
      match choices o with
      | None => Throw TypeError
      | Some cs => Ok cs
      end
  end.

(** ** Shared shape templates ([utils/field-mappings.ts]) *)

Definition CollaboratorZodTmpl : string :=
"export const AirtableCollaboratorSchema = z.object({
  id: z.string(),
  email: z.string(),
  name: z.string(),
})".

Definition AttachmentZodTmpl : string :=
"export const AirtableThumbnailSchema = z.object({
  url: z.string(),
  width: z.number(),
  height: z.number(),
})".

Definition getAdditionalTsForAttachments : string :=
"
  export interface IAirtableThumbnail {
    url: string
    width: number
    height: number
  }
  export interface IAirtableAttachment {
    id: string
    url: string
    filename: string
    size: number
    type: string
    thumbnails?: {
      small: IAirtableThumbnail
      large: IAirtableThumbnail
      full: IAirtableThumbnail
    }
  }
  ".

Definition getAdditionalTsForCollaborators : string :=
"
  export interface IAirtableCollaborator {
    id: string
    email: string
    name: string
  }
  ".

(** The first part of the template literal pushed under the [controllers]
    flag, up to the name of the base class. *)
Definition typedTableClass : string :=
"
export class TypedTable<ID extends AirtableUid, T extends FieldSetWithId<ID>> {
  readonly _id : string
  readonly _name : string
  readonly table: Airtable.Table<T>
  constructor(base: InstanceType<typeof Airtable.Base>, id: string, name: string) {
    this._id = id
    this._name = name
    this.table = new Airtable.Table<T>(base, id, name);
  }
  async find(id: ID): Promise<T | undefined> {
    const result = await this.table.find(id)
    return result && result.fields ? {_id: id, ...result.fields} : undefined;
  }
  async select(options?: Airtable.SelectOptions<T>): Promise<T[]> {
    const result = await this.table.select(options).all()
    return result.map(r => ({_id: r.id, ...r.fields}))
  }
  async create(recordData: string | (Partial<T> & {_id: undefined})): Promise<T> {
    const result = await this.table.create(recordData)
    return {_id: result.id as ID, ...result.fields}
  }
  async update(recordData: Partial<T> & {_id: ID}): Promise<T> {
    const {_id, ...fields } = recordData
    const result = await this.table.update(_id, fields as Partial<T>)
    return {_id, ...result.fields}
  }
  async destroy(id: ID): Promise<T> {
    const result = await this.table.destroy(id)
    return {_id: id, ...result.fields}
  }
}

export class ".

(** The command's flags read by the assemblers: [flags.controllers] and
    [flags.id], each already coerced by [!!]. *)
Record Flags : Type := { flag_controllers : bool; flag_id : bool }.

(** ** Table selection ([getTableMetadata]) *)

(** [fetched] is [metadata.tables], the parsed table list of the base;
    [allowlist] is [flags.tables?.split(',')]. *)
Definition getTableMetadata (fetched : list TableMetadata)
  (allowlist : option (list string)) : result (list TableMetadata) :=
  match allowlist with
  | None => Ok fetched
  | Some allowlist =>
      let tables :=
        filter (fun table => includes allowlist (table_id table)
                             || includes allowlist (table_name table))
               fetched in
      if negb (Nat.eqb (List.length tables) (List.length allowlist)) then
        let requestedTables := join ", " allowlist in
        let foundTables := join ", " (map table_name tables) in
        Throw (CLIError ("Could not find all tables:

Requested: " ++ requestedTables ++ "
Found: " ++ foundTables))
      else Ok tables
  end.

(** ** Base selection ([getBaseMetadata]) *)

(** [bases] is [metadata.bases], the parsed base list; [baseId] is
    [this.baseId], the command's argument. *)
Definition getBaseMetadata (bases : list BaseMetadata) (baseId : string)
  : result BaseMetadata :=
  let baseMeta := find (fun b => String.eqb (base_id b) baseId) bases in
  match baseMeta with
  | None => Throw (CLIError ("Could not find base with ID " ++ baseId))
  | Some baseMeta => Ok baseMeta
  end.

(** ** The enum-name resolver

    [getFieldEnumName] is imported from [utils/helpers.ts], which is not in
    src/; the assembler calls it once per choice field for the declaration of
    the field's enum, and the mapper calls it again for the field's entry. *)

(** [field.type === 'singleSelect' || field.type === 'multipleSelects'] *)
Definition isSelect (field : FieldMetadata) : bool :=
  String.eqb (field_type field) "singleSelect"
  || String.eqb (field_type field) "multipleSelects".

(** The choice fields of a table, in field order. *)
Definition selectFields (table : TableMetadata) : list FieldMetadata :=
  filter isSelect (table_fields table).

(** Equality of metadata is decidable; the resolver below finds a field
    among the fields of its table by it. *)
Definition Choice_eq_dec (a b : Choice) : {a = b} + {a <> b}.
Proof. decide equality. apply string_dec. Defined.

Definition FieldResult_eq_dec (a b : FieldResult) : {a = b} + {a <> b}.
Proof. decide equality. decide equality. apply string_dec. Defined.

Definition FieldOptions_eq_dec (a b : FieldOptions) : {a = b} + {a <> b}.
Proof.
  decide equality.
  - decide equality. apply FieldResult_eq_dec.
  - decide equality. apply string_dec.
  - decide equality. apply list_eq_dec. apply Choice_eq_dec.
  - decide equality. apply Z.eq_dec.
Defined.

Definition FieldMetadata_eq_dec (a b : FieldMetadata) : {a = b} + {a <> b}.
Proof.
  decide equality.
  - decide equality. apply FieldOptions_eq_dec.
  - apply string_dec.
  - apply string_dec.
Defined.

(** [fields.indexOf(field)] *)
Fixpoint indexOf (field : FieldMetadata) (fields : list FieldMetadata)
  : option nat :=
  match fields with
  | [] => None
  | f :: fields' =>
      if FieldMetadata_eq_dec f field then Some 0
      else option_map S (indexOf field fields')
  end.

Section EnumNameResolver.

(** The candidate name of a choice field before disambiguation, "derived
    from the table's and field's display names, normalized to a valid
    identifier form" (section 4.3 of the specification). *)
Variable enumCandidate : string -> string -> string.

(** Modelled from the spec: the candidates of the choice fields of a table,
    in field order; the resolver of section 4.3 is not in src/. *)
Definition enumCandidates (table : TableMetadata) : list string :=
  map (fun field => enumCandidate (table_name table) (field_name field))
      (selectFields table).

(** Modelled from the spec: "append a numeric suffix" (section 4.3, resolver
    not in src/): the candidate followed by the decimal numeral of [k]. *)
Definition withSuffix (candidate : string) (k : nat) : string :=
  candidate ++ NilEmpty.string_of_uint (Nat.to_uint k).

(** Modelled from the spec: the resolver of section 4.3 is not in src/.  Its
    names are "unique within the table's generated block", so the suffix
    appended is the first of [k], [k + 1], ... that gives a name not in
    [used]. *)
Fixpoint firstFree (used : list string) (candidate : string) (k fuel : nat)
  : string :=
  match fuel with
  | 0 => withSuffix candidate k
  | S fuel' =>
      if includes used (withSuffix candidate k)
      then firstFree used candidate (S k) fuel'
      else withSuffix candidate k
  end.

(** Modelled from the spec: the suffixed name of section 4.3 (resolver not in
    src/); suffixes start at one, and among [1 + length used] suffixed names
    one is not in [used]. *)
Definition freshName (used : list string) (candidate : string) : string :=
  firstFree used candidate 1 (List.length used).

(** Modelled from the spec: the resolver of section 4.3, not in src/, run
    over the candidates in first-seen order.  "Two fields with the same
    display name produce the same candidate before disambiguation;
    disambiguation policy: append a numeric suffix in first-seen order": the
    first field of a candidate keeps the candidate, every later one gets a
    suffixed name.  [seen] holds the candidates already met, [used] the
    names that are taken: the candidates of the table and the suffixed names
    given so far. *)
Fixpoint resolveNames (seen used candidates : list string) : list string :=
  match candidates with
  | [] => []
  | c :: rest =>
      if includes seen c then
        let name := freshName used c in
        name :: resolveNames seen (name :: used) rest
      else c :: resolveNames (c :: seen) used rest
  end.

(** Modelled from the spec: the names the resolver of section 4.3, not in
    src/, gives to the choice fields of [table], in field order. *)
Definition enumNames (table : TableMetadata) : list string :=
  resolveNames [] (enumCandidates table) (enumCandidates table).

(** Modelled from the spec: [enumName(table, field)] of section 4.3, the
    contract of [getFieldEnumName] ([utils/helpers.ts], not in src/): the
    name given to [field] at its place among the choice fields of [table],
    and the bare candidate for a field that is not among them. *)
Definition enumName (table : TableMetadata) (field : FieldMetadata)
  : string :=
  match indexOf field (selectFields table) with
  | Some n =>
      nth n (enumNames table)
          (enumCandidate (table_name table) (field_name field))
  | None => enumCandidate (table_name table) (field_name field)
  end.

End EnumNameResolver.

(** ** Sample metadata

    Concrete instances of the imported functions and a small base, used to run
    the definitions above on explicit inputs. *)

Module Sample.

(** [pascalCase] leaves a name that is one capitalised ASCII word
    unchanged; every name below is such a word. *)
Definition pascalCase (s : string) : string := s.

(** Modelled from the spec: the cell-format table of [schemas/fields.ts] is
    not in src/.  Section 4.4 has the static-typing mapper emit
    language-native type syntax per category: boolean, numeric, string. *)
Definition printCellFormat (tag : FieldType) : string :=
  match tag with
  | checkbox => "boolean"
  | autoNumber | count | currency | duration | number | percent | rating =>
      "number"
  | multipleRecordLinks => "string[]"
  | _ => "string"
  end.

(** Modelled from the spec: the candidate name of [getFieldEnumName]
    ([utils/helpers.ts], not in src/).  Section 4.3 derives it from the
    display names of the table and of the field, normalized to an
    identifier. *)
Definition enumCandidate (tableName fieldName : string) : string :=
  pascalCase tableName ++ pascalCase fieldName.

(** Modelled from the spec: [getFieldEnumName] of [utils/helpers.ts], not in
    src/: the resolver of section 4.3 on the candidates above. *)
Definition getFieldEnumName (table : TableMetadata) (field : FieldMetadata)
  : string :=
  enumName enumCandidate table field.

(** Modelled from the spec: the attachment category of section 4.1, read by
    [hasAttachmentField] ([utils/helpers.ts], not in src/). *)
Definition isAttachmentField (field : FieldMetadata) : bool :=
  String.eqb (field_type field) "multipleAttachments".

(** Modelled from the spec: [hasAttachmentField] of [utils/helpers.ts], not
    in src/.  Section 4.6 needs the attachment shape when any selected table
    has an attachment-category field. *)
Definition hasAttachmentField (fields : list FieldMetadata) : bool :=
  existsb isAttachmentField fields.

(** Modelled from the spec: the collaborator category read by
    [hasCollaboratorField] ([utils/helpers.ts], not in src/): the tags whose
    validator refers to the collaborator shape. *)
Definition isCollaboratorField (field : FieldMetadata) : bool :=
  includes ["singleCollaborator"; "multipleCollaborators"; "createdBy";
            "lastModifiedBy"] (field_type field).

(** Modelled from the spec: [hasCollaboratorField] of [utils/helpers.ts],
    not in src/.  Section 4.6 treats the collaborator shape like the
    attachment shape. *)
Definition hasCollaboratorField (fields : list FieldMetadata) : bool :=
  existsb isCollaboratorField fields.

(** Modelled from the spec: [isReadonlyField] of [utils/helpers.ts], not in
    src/.  Section 4.2 lists the system-computed categories: auto-incrementing
    counters, rollups, formulas, creation and modification timestamps and
    actors, external-sync placeholders. *)
Definition isReadonlyField (field : FieldMetadata) : bool :=
  includes ["autoNumber"; "rollup"; "formula"; "createdTime";
            "lastModifiedTime"; "createdBy"; "lastModifiedBy";
            "externalSyncSource"] (field_type field).

Definition plainField (name type : string) : FieldMetadata :=
  {| field_name := name; field_type := type; field_options := None |}.

Definition numberField (name : string) (p : Z) : FieldMetadata :=
  {| field_name := name; field_type := "number";
     field_options :=
       Some {| precision := Some p; choices := None;
               linkedTableId := None; options_result := None |} |}.

Definition selectField (name type : string) (names : list string)
  : FieldMetadata :=
  {| field_name := name; field_type := type;
     field_options :=
       Some {| precision := None;
               choices := Some (map (fun n => {| choice_name := n |}) names);
               linkedTableId := None; options_result := None |} |}.

Definition linkField (name target : string) : FieldMetadata :=
  {| field_name := name; field_type := "multipleRecordLinks";
     field_options :=
       Some {| precision := None; choices := None;
               linkedTableId := Some target; options_result := None |} |}.

Definition derivedField (name type resultType : string) : FieldMetadata :=
  {| field_name := name; field_type := type;
     field_options :=
       Some {| precision := None; choices := None; linkedTableId := None;
               options_result :=
                 Some {| result_type := Some resultType |} |} |}.

Definition Customers : TableMetadata :=
  {| table_id := "tblCustomers"; table_name := "Customers";
     table_fields :=
       [ plainField "Name" "singleLineText";
         plainField "Photos" "multipleAttachments";
         plainField "Created" "createdTime" ] |}.

Definition Orders : TableMetadata :=
  {| table_id := "tblOrders"; table_name := "Orders";
     table_fields :=
       [ plainField "Number" "autoNumber";
         numberField "Quantity" 0;
         selectField "Status" "singleSelect" ["Open"; "Shipped"];
         linkField "Customer" "tblCustomers";
         plainField "Receipts" "multipleAttachments" ] |}.


Definition Legacy : TableMetadata :=
  {| table_id := "tblLegacy"; table_name := "Legacy";
     table_fields :=
       [ plainField "Title" "singleLineText";
         plainField "Old" "lookup";
         plainField "Older" "attachment" ] |}.

Definition Shop : BaseMetadata :=
  {| base_id := "appShop"; base_name := "Shop" |}.

Definition tsOpts : TsOptions := {| useAirtableLibraryTypes := false |}.

End Sample.

(** ** The typed table ([static/typed-table.ts])

    A JavaScript object is read as the map from its property names to their
    values; the Airtable library ([Airtable.Table]) is a record of operations
    on the state [World] of the remote base, each of which may reject.  An
    [await] is the sequencing of these operations. *)

Module TypedTable.

Section Methods.

(** Cell values other than strings, the state of the remote base, and
    [Airtable.SelectOptions]. *)
Variables (Cell World Query : Type).

Inductive value : Type :=
| VUndefined
| VString (s : string)
| VCell (c : Cell).

Definition object : Type := string -> option value.

(** [{ _id: id }] *)
Definition idObject (id : value) : object :=
  fun key => if String.eqb key "_id" then Some id else None.

(** [{ ...target, ...source }]: the properties of [source] come last and
    win; spreading [undefined] adds nothing. *)
Definition spread (target : object) (source : option object) : object :=
  match source with
  | None => target
  | Some source =>
      fun key =>
        match source key with
        | Some v => Some v
        | None => target key
        end
  end.

(** [{ _id: id, ...fields }] *)
Definition withId (id : value) (fields : option object) : object :=
  spread (idObject id) fields.

(** [const { _id, ...fields } = recordData]: the two bindings. *)
Definition destructuredId (recordData : object) : value :=
  match recordData "_id" with
  | Some v => v
  | None => VUndefined
  end.

Definition destructuredRest (recordData : object) : object :=
  fun key => if String.eqb key "_id" then None else recordData key.

(** An [Airtable.Record]: its id and its fields. *)
Record AirtableRecord : Type := {
  record_id : string;
  record_fields : option object
}.

(** An operation on the remote base: the outcome and the new state. *)
Definition remote (A : Type) : Type := World -> result A * World.

Definition bindRemote {A B : Type} (m : remote A) (k : A -> remote B)
  : remote B :=
  fun w =>
    match m w with
    | (Ok a, w') => k a w'
    | (Throw e, w') => (Throw e, w')
    end.

Definition retRemote {A : Type} (a : A) : remote A := fun w => (Ok a, w).

(** The methods of [Airtable.Table] that [TypedTable] calls; [at_select]
    is [table.select(options).all()]. *)
Record AirtableTable : Type := {
  at_find : string -> remote (option AirtableRecord);
  at_select : option Query -> remote (list AirtableRecord);
  at_create : string + object -> remote AirtableRecord;
  at_update : value -> object -> remote AirtableRecord;
  at_destroy : string -> remote AirtableRecord
}.

Record TypedTable : Type := {
  _id : string;
  _name : string;
  table : AirtableTable
}.

Definition find (this : TypedTable) (id : string) : remote (option object) :=
  bindRemote (at_find (table this) id) (fun result =>
  retRemote
    match result with
    | Some result =>
        match record_fields result with
        | Some fields => Some (withId (VString id) (Some fields))
        | None => None
        end
    | None => None
    end).

Definition select (this : TypedTable) (options : option Query)
  : remote (list object) :=
  bindRemote (at_select (table this) options) (fun result =>
  retRemote
    (map (fun r => withId (VString (record_id r)) (record_fields r)) result)).

Definition create (this : TypedTable) (recordData : string + object)
  : remote object :=
  bindRemote (at_create (table this) recordData) (fun result =>
  retRemote (withId (VString (record_id result)) (record_fields result))).

Definition update (this : TypedTable) (recordData : object) : remote object :=
  let _id := destructuredId recordData in
  let fields := destructuredRest recordData in
  bindRemote (at_update (table this) _id fields) (fun result =>
  retRemote (withId _id (record_fields result))).

Definition destroy (this : TypedTable) (id : string) : remote object :=
  bindRemote (at_destroy (table this) id) (fun result =>
  retRemote (withId (VString id) (record_fields result))).

(** [CachedQuery]: the table, the query and the private field [cached]. *)
Record CachedQuery : Type := {
  cq_table : TypedTable;
  cq_query : Query;
  cached : option (list object)
}.

(** [TypedTable.cache], that is [new CachedQuery(this, options)]. *)
Definition cache (this : TypedTable) (options : Query) : CachedQuery :=
  {| cq_table := this; cq_query := options; cached := None |}.

(** [fetch]: the rows, and the object after the call. *)
Definition fetch (this : CachedQuery) : remote (list object * CachedQuery) :=
  match cached this with
  | None =>
      bindRemote (select (cq_table this) (Some (cq_query this))) (fun rows =>
      retRemote
        (rows,
         {| cq_table := cq_table this; cq_query := cq_query this;
            cached := Some rows |}))
  | Some rows => retRemote (rows, this)
  end.

Definition flush (this : CachedQuery) : CachedQuery :=
  {| cq_table := cq_table this; cq_query := cq_query this; cached := None |}.

(** [row] is what the spread [{ _id: id, ...fields }] holds: every property
    of [fields], and [_id] bound to [id] unless [fields] has a property of
    that name. *)
Definition rowOf (id : value) (fields : option object) (row : object)
  : Prop :=
  let fields := match fields with Some f => f | None => fun _ => None end in
  (forall key, key <> "_id" -> row key = fields key)
  /\ row "_id" = Some match fields "_id" with
                      | Some v => v
                      | None => id
                      end.

End Methods.

End TypedTable.

Arguments TypedTable.VUndefined {Cell}.
Arguments TypedTable.VString {Cell} s.
Arguments TypedTable.VCell {Cell} c.
Arguments TypedTable.Build_AirtableRecord {Cell} record_id record_fields.
Arguments TypedTable.record_id {Cell} _.
Arguments TypedTable.record_fields {Cell} _.
Arguments TypedTable.at_find {Cell World Query} _ _ _.
Arguments TypedTable.at_select {Cell World Query} _ _ _.
Arguments TypedTable.at_create {Cell World Query} _ _ _.
Arguments TypedTable.at_update {Cell World Query} _ _ _ _.
Arguments TypedTable.at_destroy {Cell World Query} _ _ _.
Arguments TypedTable.table {Cell World Query} _.
Arguments TypedTable.find {Cell World Query} this id _.
Arguments TypedTable.select {Cell World Query} this options _.
Arguments TypedTable.create {Cell World Query} this recordData _.
Arguments TypedTable.update {Cell World Query} this recordData _.
Arguments TypedTable.destroy {Cell World Query} this id _.
Arguments TypedTable.cq_table {Cell World Query} _.
Arguments TypedTable.cq_query {Cell World Query} _.
Arguments TypedTable.cached {Cell World Query} _.
Arguments TypedTable.cache {Cell World Query} this options.
Arguments TypedTable.fetch {Cell World Query} this _.
Arguments TypedTable.flush {Cell World Query} this.
Arguments TypedTable.rowOf {Cell} id fields row.
Arguments TypedTable.withId {Cell} id fields _.
Arguments TypedTable.destructuredId {Cell} recordData.
Arguments TypedTable.destructuredRest {Cell} recordData _.

(** ** A sample remote table

    The state of the remote base is the number of calls it has served; the
    one record it holds counts them in its field [Visits]. *)

Module SampleRemote.

Definition row (visits : nat) : TypedTable.object nat :=
  fun key =>
    if String.eqb key "Name" then Some (TypedTable.VString "Ada")
    else if String.eqb key "Visits" then Some (TypedTable.VCell visits)
    else None.

Definition record (visits : nat) : TypedTable.AirtableRecord nat :=
  {| TypedTable.record_id := "rec1";
     TypedTable.record_fields := Some (row visits) |}.

Definition airtable : TypedTable.AirtableTable nat nat unit :=
  {| TypedTable.at_find := fun id w =>
       (Ok (if String.eqb id "rec1" then Some (record w) else None), S w);
     TypedTable.at_select := fun _ w => (Ok [record w], S w);
     TypedTable.at_create := fun _ w => (Throw (Error "read-only base"), S w);
     TypedTable.at_update := fun _ fields w =>
       (Ok {| TypedTable.record_id := "rec1";
              TypedTable.record_fields := Some fields |}, S w);
     TypedTable.at_destroy := fun _ w =>
       (Throw (Error "read-only base"), S w) |}.

Definition people : TypedTable.TypedTable nat nat unit :=
  {| TypedTable._id := "tblPeople"; TypedTable._name := "People";
     TypedTable.table := airtable |}.

(** The argument of an update: an id and one field. *)
Definition change : TypedTable.object nat :=
  fun key =>
    if String.eqb key "_id" then Some (TypedTable.VString "rec1")
    else if String.eqb key "Name" then Some (TypedTable.VString "Grace")
    else None.

End SampleRemote.


Section Generator.

(** [pascalCase] of the [change-case] library. *)
Variable pascalCase : string -> string.

(** The cell-format table [CellFormatTypescriptDefinitions] of
    [schemas/fields.ts], printed by [printNode]: [getTsForFieldType] indexes
    it by [FieldType], so it has one entry per tag of the enumeration. *)
Variable printCellFormat : FieldType -> string.

(** The four functions imported from [utils/helpers.ts]. *)
Variable getFieldEnumName : TableMetadata -> FieldMetadata -> string.
Variable hasAttachmentField : list FieldMetadata -> bool.
Variable hasCollaboratorField : list FieldMetadata -> bool.
Variable isReadonlyField : FieldMetadata -> bool.

(** *** The schema-validator mapper *)

Definition getZodType (table : TableMetadata) (field : FieldMetadata)
  : result string :=
  match switchOnType (field_type field) with
  | Some autoNumber => Ok "z.number().int().positive()"
  | Some barcode => Ok "z.object({ text: z.string(), type: z.string() })"
  | Some button =>
      Ok "z.object({ label: z.string() }).merge(z.record(z.unknown()))"
  | Some checkbox => Ok "z.boolean()"
  | Some count => Ok "z.number().int().nonnegative()"
  | Some createdBy | Some lastModifiedBy | Some singleCollaborator =>
      Ok "AirtableCollaboratorSchema"
  | Some date | Some dateTime | Some createdTime | Some lastModifiedTime =>
      Ok "z.coerce.date()"
  | Some number | Some percent | Some currency =>
      match field_options field with
      | Some o =>
          match precision o with
          | Some 0%Z => Ok "z.number().int().positive()"
          | _ => Ok "z.number().positive()"
          end
      | None => Ok "z.number().positive()"
      end
  | Some duration => Ok "z.number()"
  | Some rating => Ok "z.number().min(0).max(5)"
  | Some email => Ok "z.string().email()"
  | Some aiText | Some multilineText | Some phoneNumber
  | Some singleLineText | Some url | Some richText => Ok "z.string()"
  | Some rollup | Some formula => Ok "z.string().or(z.number())"
  | Some multipleCollaborators => Ok "z.array(AirtableCollaboratorSchema)"
  | Some multipleAttachments => Ok "z.array(AirtableAttachmentSchema)"
  | Some multipleLookupValues =>
      Ok "z.union([z.array(z.string()), z.array(z.boolean()), z.array(z.number()), z.array(z.record(z.unknown()))])"
  | Some multipleRecordLinks => Ok "z.array(z.string())"
  | Some singleSelect => Ok (getFieldEnumName table field)
  | Some multipleSelects =>
      Ok ("z.array(" ++ getFieldEnumName table field ++ ")")
  | Some externalSyncSource => Ok "z.unknown()"
  | None => Throw (unrecognized field)
  end.

(** *** The static-typing mapper *)

(** [printNode(CellFormatTypescriptDefinitions[type])]: a [type] that is not
    a key of the table reads [undefined], on which [printNode] raises a
    [TypeError]. *)
Definition getTsForFieldType (type : string) : result string :=
  match switchOnType type with
  | Some tag => Ok (printCellFormat tag)
  | None => Throw TypeError
  end.

(** [field.options?.result?.type ?? field.type] *)
Definition derivedType (field : FieldMetadata) : string :=
  match field_options field with
  | Some o =>
      match options_result o with
      | Some r =>
          match result_type r with
          | Some type => type
          | None => field_type field
          end
      | None => field_type field
      end
  | None => field_type field
  end.

(** [choices.map((choice) => `'${choice.name}'`).join(' | ')] *)
Definition choiceUnion (cs : list Choice) : string :=
  join " | " (map (fun choice => "'" ++ choice_name choice ++ "'") cs).

Definition getTsType (field : FieldMetadata) (opts : TsOptions)
  : result string :=
  match switchOnType (field_type field) with
  | Some aiText | Some button =>
      if useAirtableLibraryTypes opts then Ok "string"
      else getTsForFieldType (field_type field)
  | Some autoNumber | Some barcode | Some checkbox | Some count
  | Some currency | Some date | Some dateTime | Some duration | Some email
  | Some externalSyncSource | Some multilineText
  | Some multipleCollaborators | Some multipleRecordLinks | Some number
  | Some percent | Some phoneNumber | Some rating | Some richText
  | Some singleLineText | Some url =>
      getTsForFieldType (field_type field)
  | Some createdBy | Some lastModifiedBy | Some singleCollaborator =>
      Ok (if useAirtableLibraryTypes opts then "Airtable.Collaborator"
          else "IAirtableCollaborator")
  | Some multipleAttachments =>
      Ok (if useAirtableLibraryTypes opts then "Airtable.Attachment[]"
          else "Array<IAirtableAttachment>")
  | Some createdTime | Some formula | Some lastModifiedTime
  | Some multipleLookupValues | Some rollup =>
      getTsForFieldType (derivedType field)
  | Some singleSelect =>
      cs <- fieldChoices field ;; Ok (choiceUnion cs)
  | Some multipleSelects =>
      cs <- fieldChoices field ;; Ok ("Array<" ++ choiceUnion cs ++ ">")
  | None => Throw (unrecognized field)
  end.

(** *** The schema-validator assembler ([generateZodSchemas]) *)

(** The enum declaration pushed for one field of the first inner loop. *)
Definition zodEnumDecl (table : TableMetadata) (field : FieldMetadata)
  : result (list string) :=
  if isSelect field then
    let enumName := getFieldEnumName table field in
    cs <- fieldChoices field ;;
    Ok (["export const " ++ enumName ++ " = z.enum(["]
        +++ map (fun choice => "  '" ++ choice_name choice ++ "',") cs
        +++ ["])"; ""])
  else Ok [].

(** The entry pushed for one field of the second inner loop. *)
Definition zodFieldLine (table : TableMetadata) (field : FieldMetadata)
  : result string :=
  let fieldName := field_name field in
  fieldType <- getZodType table field ;;
  let isReadonly := isReadonlyField field in
  let suffix := if isReadonly then "," else ".optional()," in
  Ok ("  '" ++ fieldName ++ "': " ++ fieldType ++ suffix).

(** The lines that open and close the schema of one table. *)
Definition zodBlockOpen (table : TableMetadata) : list string :=
  let tableSchemaName := pascalCase (table_name table) ++ "Schema" in
  ["export const " ++ tableSchemaName ++ " = z.object({"].

Definition zodBlockClose (table : TableMetadata) : list string :=
  let tableSchemaName := pascalCase (table_name table) ++ "Schema" in
  let tableTypeName := pascalCase (table_name table) in
  ["})";
   "export type " ++ tableTypeName ++ " = z.infer<typeof "
     ++ tableSchemaName ++ ">";
   ""].

(** Everything one iteration of [for (const table of tables)] pushes. *)
Definition zodTableBlock (table : TableMetadata) : result (list string) :=
  enums <- mapM (zodEnumDecl table) (table_fields table) ;;
  entries <- mapM (zodFieldLine table) (table_fields table) ;;
  Ok (concat enums +++ zodBlockOpen table +++ entries
      +++ zodBlockClose table).

(** [tables.map((t) => t.fields).flat()] *)
Definition allFields (tables : list TableMetadata) : list FieldMetadata :=
  concat (map table_fields tables).

(** What is pushed before the loop over the tables. *)
Definition zodPreamble (tables : list TableMetadata) : list string :=
  ["import { z } from 'zod'"; ""]
  +++ (if hasAttachmentField (allFields tables)
       then [AttachmentZodTmpl; ""] else [])
  +++ (if hasCollaboratorField (allFields tables)
      then [CollaboratorZodTmpl; ""] else []).

(** The array [lines] when [generateZodSchemas] reaches its [return]. *)
Definition generateZodLines (tables : list TableMetadata)
  : result (list string) :=
  blocks <- mapM zodTableBlock tables ;;
  Ok (zodPreamble tables +++ concat blocks).

Definition generateZodSchemas (base : BaseMetadata)
  (tables : list TableMetadata) : result string :=
  lines <- generateZodLines tables ;;
  Ok (join newline lines).

(** *** The static-typing assembler ([generateTSDefinitions]) *)

(** [tables.filter((t) => t.id == field.options.linkedTableId)]: the
    callback reads [field.options.linkedTableId] once per table. *)
Definition linkedTables (tables : list TableMetadata)
  (field : FieldMetadata) : result (list TableMetadata) :=
  match tables with
  | [] => Ok []
  | _ :: _ =>
      match field_options field with
      | None => Throw TypeError
      | Some o =>
          Ok (filter (fun t =>
                        match linkedTableId o with
                        | Some l => String.eqb (table_id t) l
                        | None => false
                        end) tables)
      end
  end.

(** The value of [fieldType] when the entry of a field is pushed. *)
Definition tsFieldType (genIds : bool) (tables : list TableMetadata)
  (field : FieldMetadata) (tsOpts : TsOptions) : result string :=
  fieldType <- getTsType field tsOpts ;;
  if genIds && String.eqb (field_type field) "multipleRecordLinks" then
    linked <- linkedTables tables field ;;
    let linkedTableIdType :=
      match pop (map (fun t => pascalCase (table_name t) ++ "Id") linked)
      with
      | Some s => if String.eqb s "" then "AirtableUid" else s
      | None => "AirtableUid"
      end in
    Ok ("Array<" ++ linkedTableIdType ++ ">")
  else Ok fieldType.

Definition tsFieldLine (genIds : bool) (tables : list TableMetadata)
  (tsOpts : TsOptions) (field : FieldMetadata) : result string :=
  let fieldName := field_name field in
  fieldType <- tsFieldType genIds tables field tsOpts ;;
  let isReadonly := isReadonlyField field in
  Ok ("  '" ++ fieldName ++ "'" ++ (if isReadonly then "" else "?")
      ++ ": " ++ fieldType).

(** The lines pushed for one table before its field entries. *)
Definition tsBlockOpen (controllers : bool) (table : TableMetadata)
  : list string :=
  let tableName := pascalCase (table_name table) in
  [""; "export type " ++ tableName ++ "Id = AirtableUid;"; "";
   "export interface " ++ tableName
     ++ (if controllers
         then " extends FieldSetWithId<" ++ tableName ++ "Id>"
         else "")
     ++ " {";
   "  _id?: " ++ tableName
     ++ "Id; // not respected by the official Airtable Library"].

Definition tsTableBlock (controllers genIds : bool)
  (tables : list TableMetadata) (table : TableMetadata)
  : result (list string) :=
  let tsOpts := {| useAirtableLibraryTypes := controllers |} in
  entries <- mapM (tsFieldLine genIds tables tsOpts) (table_fields table) ;;
  Ok (tsBlockOpen controllers table +++ entries +++ ["}"; ""]).

Definition tsShapes (controllers : bool) (tables : list TableMetadata)
  : list string :=
  if controllers then ["import Airtable from 'airtable';"]
  else
    (if hasAttachmentField (allFields tables)
     then [getAdditionalTsForAttachments; ""] else [])
    +++ (if hasCollaboratorField (allFields tables)
        then [getAdditionalTsForCollaborators; ""] else []).

Definition tsPreamble (controllers : bool) (tables : list TableMetadata)
  : list string :=
  tsShapes controllers tables
  +++ ["export type AirtableUid = string;";
      "export type FieldSetWithId<T extends AirtableUid> = Omit<Airtable.FieldSet, keyof Airtable.FieldSet> & { _id?: T };"].

(** The typed-table classes appended under the [controllers] flag. *)
Definition tsControllers (base : BaseMetadata)
  (tables : list TableMetadata) : list string :=
  let baseName := pascalCase (base_name base) in
  let className := baseName ++ "Base" in
  [typedTableClass ++ className ++ " {
  readonly at: Airtable
  readonly base: InstanceType<typeof Airtable.Base>
  static readonly _id: string = '" ++ base_id base ++ "'
  static readonly _name: string = '" ++ base_name base ++ "'
  constructor(options: Airtable.AirtableOptions) {
      this.at = new Airtable(options)
      this.base = new Airtable.Base(this.at, " ++ className ++ "._id);
  }"; ""]
  +++ map (fun x =>
            let tname := pascalCase (table_name x) in
            "  get" ++ tname ++ "Table = ()=> new TypedTable<" ++ tname
              ++ "Id, " ++ tname ++ ">(this.base, '" ++ table_id x
              ++ "', '" ++ table_name x ++ "');") tables
  +++ ["}"; ""].

(** The array [lines] when [generateTSDefinitions] reaches its [return]. *)
Definition generateTSLines (flags : Flags) (base : BaseMetadata)
  (tables : list TableMetadata) : result (list string) :=
  let controllers := flag_controllers flags in
  let genIds := flag_id flags in
  blocks <- mapM (tsTableBlock controllers genIds tables) tables ;;
  Ok (tsPreamble controllers tables +++ concat blocks
      +++ (if controllers then tsControllers base tables else [])).

Definition generateTSDefinitions (flags : Flags) (base : BaseMetadata)
  (tables : list TableMetadata) : result string :=
  lines <- generateTSLines flags base tables ;;
  Ok (join newline lines).

(** *** Vocabulary of the statements *)

(** The [case] labels of the branch of [getTsType] that reads the derived
    result type. *)
Definition computedDerivedTags : list string :=
  ["createdTime"; "formula"; "lastModifiedTime"; "multipleLookupValues";
   "rollup"].

(** The [case] labels of the branch of [getZodType] that reads the
    precision. *)
Definition precisionTags : list string := ["number"; "percent"; "currency"].

(** [entry] is the entry of [field] in the block of [table] in the
    schema-validator dialect: name, mapped type, the marker [.optional()]
    exactly when [optional] holds, and the closing comma. *)
Definition zodEntryOf (table : TableMetadata) (field : FieldMetadata)
  (optional : bool) (entry : string) : Prop :=
  exists fieldType,
    getZodType table field = Ok fieldType
    /\ entry = "  '" ++ field_name field ++ "': " ++ fieldType
                 ++ (if optional then ".optional()," else ",").

(** The same in the static-typing dialect, where the marker is [?]. *)
Definition tsEntryOf (genIds : bool) (tables : list TableMetadata)
  (tsOpts : TsOptions) (field : FieldMetadata) (optional : bool)
  (entry : string) : Prop :=
  exists fieldType,
    tsFieldType genIds tables field tsOpts = Ok fieldType
    /\ entry = "  '" ++ field_name field ++ "'"
                 ++ (if optional then "?" else "") ++ ": " ++ fieldType.

(** Some field of some selected table satisfies [p]. *)
Definition anyField (p : FieldMetadata -> bool) (tables : list TableMetadata)
  : Prop :=
  exists table field,
    In table tables /\ In field (table_fields table) /\ p field = true.

(** How many of the pushed fragments are exactly [fragment]. *)
Definition occurrences (fragment : string) (lines : list string) : nat :=
  count_occ string_dec lines fragment.

(** [hay.includes(needle)] on strings. *)
Fixpoint contains (needle hay : string) : bool :=
  String.prefix needle hay
  || match hay with
     | EmptyString => false
     | String _ hay' => contains needle hay'
     end.

(** The allow-list entry [entry] is the id or the name of [table]. *)
Definition resolvesTo (entry : string) (table : TableMetadata) : bool :=
  String.eqb (table_id table) entry || String.eqb (table_name table) entry.

(** [block] is a per-table block of the schema-validator dialect: the enum
    declarations of the table's choice fields, the opening line, one entry
    per field in field order, each optional exactly when [isReadonlyField]
    rejects the field, and the closing lines. *)
Definition zodBlockOf (table : TableMetadata) (block : list string) : Prop :=
  exists enums entries,
    mapM (zodEnumDecl table) (table_fields table) = Ok enums
    /\ block = concat enums +++ zodBlockOpen table +++ entries
               +++ zodBlockClose table
    /\ Forall2 (fun field entry =>
                  zodEntryOf table field (negb (isReadonlyField field)) entry)
               (table_fields table) entries.

(** The same for the static-typing dialect. *)
Definition tsBlockOf (controllers genIds : bool)
  (tables : list TableMetadata) (table : TableMetadata)
  (block : list string) : Prop :=
  exists entries,
    block = tsBlockOpen controllers table +++ entries +++ ["}"; ""]
    /\ Forall2 (fun field entry =>
                  tsEntryOf genIds tables
                    {| useAirtableLibraryTypes := controllers |} field
                    (negb (isReadonlyField field)) entry)
               (table_fields table) entries.

(** The last character of a string. *)
Fixpoint lastChar (s : string) : option ascii :=
  match s with
  | EmptyString => None
  | String c EmptyString => Some c
  | String _ s' => lastChar s'
  end.

(** The two shared shape fragments of each dialect. *)
Definition zodShape (s : string) : Prop :=
  s = AttachmentZodTmpl \/ s = CollaboratorZodTmpl.

Definition tsShape (s : string) : Prop :=
  s = getAdditionalTsForAttachments \/ s = getAdditionalTsForCollaborators.

(** [fragment] is pushed once in [preamble] when [needed] holds, not at all
    otherwise, and never among the lines [rest] that follow the preamble. *)
Definition emittedOnce (fragment : string) (needed : Prop)
  (preamble rest : list string) : Prop :=
  occurrences fragment rest = 0
  /\ (needed -> occurrences fragment preamble = 1)
  /\ (~ needed -> occurrences fragment preamble = 0).

(** *** Vocabulary of the further properties *)

(** What the schema-validator assembler needs of a field: a tag of the
    enumeration and, on a choice field, the choice list. *)
Definition zodAccepts (field : FieldMetadata) : Prop :=
  inEnumeration (field_type field)
  /\ (isSelect field = true -> exists cs, fieldChoices field = Ok cs).

(** What the static-typing mapper needs of a field: the same and, on a
    computed-derived field, a derived result type that is a key of the
    cell-format table. *)
Definition tsTypeAccepts (field : FieldMetadata) : Prop :=
  zodAccepts field
  /\ (In (field_type field) computedDerivedTags ->
      inEnumeration (derivedType field)).

(** What the static-typing assembler needs of a field: what its mapper needs
    and, when strong identifiers are requested, the options of a reference
    field. *)
Definition tsAccepts (genIds : bool) (field : FieldMetadata) : Prop :=
  tsTypeAccepts field
  /\ (genIds = true -> field_type field = "multipleRecordLinks" ->
      field_options field <> None).


(** Among [lines], the reference field [field] has an entry whose type is an
    array of an identifier type that [lines] declare: the generic
    [AirtableUid], or the identifier type of a table of the generation set. *)
Definition referenceDeclared (tables : list TableMetadata)
  (field : FieldMetadata) (lines : list string) : Prop :=
  exists marker ty,
    In ("  '" ++ field_name field ++ "'" ++ marker ++ ": " ++ ty) lines
    /\ ((ty = "Array<AirtableUid>"
         /\ In "export type AirtableUid = string;" lines)
        \/ (exists target,
               In target tables
               /\ ty = "Array<" ++ pascalCase (table_name target) ++ "Id>"
               /\ In ("export type " ++ pascalCase (table_name target)
                      ++ "Id = AirtableUid;") lines)).



(** *** The command ([run] and the methods it calls)

    The file system, the network and the two schema parsers are the fields of
    an environment [env]; every call of one of them that has an effect is
    recorded, in order, in the trace of the run.  The fields of the command
    object that the methods assign are threaded as the state [Main]. *)

(** Parsed JSON. *)
Variable Json : Type.

(** [paramCase] of the [change-case] library, and a constant of
    [utils/constants.ts]. *)
Variable paramCase : string -> string.
Variable AIRTABLE_API_BASE_META_PATH : string.

(** What [fs.readJSON] found in a cache file: the two properties the code
    reads, [None] when missing or falsy. *)
Record CacheJson : Type := {
  cache_baseMetadata : option Json;
  cache_tableMetadata : option Json
}.

(** [fs.pathExists], [fs.readJSON], [httpRequest] (by request path and
    access token), [fs.ensureFile], [fs.writeFile], [fs.writeJSON],
    [path.resolve(process.cwd(), _)], [BaseListMetadataSchema.parse] and
    [TableListMetadataSchema.parse] (each with the property it is read
    through, [bases] and [tables]). *)
Record Env : Type := {
  pathExists : string -> bool;
  readJSON : string -> result CacheJson;
  httpRequest : string -> string -> result Json;
  ensureFile : string -> result unit;
  writeFile : string -> string -> result unit;
  writeJSON : string -> CacheJson -> result unit;
  resolve : string -> string;
  parseBaseList : Json -> result (list BaseMetadata);
  parseTableList : Json -> result (list TableMetadata)
}.

Variable env : Env.

Inductive event : Type :=
| Log (message : string)
| LogError (message : string) (e : exn)
| HttpRequest (reqPath : string)
| EnsureFile (path : string)
| WriteFile (path : string) (data : string)
| WriteJSON (path : string) (json : CacheJson).

(** The parsed flags of the command line. *)
Record CommandFlags : Type := {
  flags_jsoncache : option string;
  flags_output : option string;
  flags_zod : bool;
  flags_tables : option string;
  flags_id : bool;
  flags_controllers : bool
}.

(** The fields of the command object. *)
Record Main : Type := {
  accessToken : option string;
  this_baseId : string;
  this_flags : CommandFlags;
  baseMetadata : option Json;
  tableMetadata : option Json;
  shouldWriteJson : bool
}.

(** A method: from the object to the trace of its calls and, unless it
    threw, its value and the object afterwards. *)
Definition command (A : Type) : Type :=
  Main -> list event * result (A * Main).

Definition ret {A : Type} (a : A) : command A :=
  fun this => ([], Ok (a, this)).

Definition andThen {A B : Type} (m : command A) (k : A -> command B)
  : command B :=
  fun this =>
    match m this with
    | (trace, Ok (a, this')) =>
        let (trace', outcome) := k a this' in (trace +++ trace', outcome)
    | (trace, Throw e) => (trace, Throw e)
    end.

Notation "x <~ m ;;; k" := (andThen m (fun x => k))
  (at level 61, m at next level, right associativity).
Notation "m ;;; k" := (andThen m (fun _ => k))
  (at level 61, right associativity).

Definition emit (ev : event) : command unit :=
  fun this => ([ev], Ok (tt, this)).

Definition lift {A : Type} (r : result A) : command A :=
  fun this =>
    match r with
    | Ok a => ([], Ok (a, this))
    | Throw e => ([], Throw e)
    end.

Definition getThis : command Main := fun this => ([], Ok (this, this)).

Definition setThis (this' : Main) : command unit :=
  fun _ => ([], Ok (tt, this')).

(** [String.prototype.split] with a one-character separator. *)
Fixpoint splitFrom (sep : ascii) (current s : string) : list string :=
  match s with
  | EmptyString => [current]
  | String c s' =>
      if Ascii.eqb c sep then current :: splitFrom sep "" s'
      else splitFrom sep (current ++ String c "") s'
  end.

Definition split (sep : ascii) (s : string) : list string :=
  splitFrom sep "" s.

Definition fetchAirtableApi (reqPath : string) : command Json :=
  emit (Log ("Fetching " ++ reqPath)) ;;;
  this <~ getThis ;;;
  match accessToken this with
  | Some token =>
      if String.eqb token "" then
        lift (Throw (CLIError "No Airtable Access Token token provided. Make sure to set the AIRTABLE_TYPEGEN_ACCESS_TOKEN environment variable."))
      else
        emit (HttpRequest reqPath) ;;;
        lift (httpRequest env reqPath token)
  | None =>
      lift (Throw (CLIError "No Airtable Access Token token provided. Make sure to set the AIRTABLE_TYPEGEN_ACCESS_TOKEN environment variable."))
  end.

(** [tryReadJsonCache]; the [catch] block logs under one of two headings, by
    the class of the exception, and [fs.readJSON] does not throw the class
    of the first. *)
Definition tryReadJsonCache (file : string) : command bool :=
  let input := resolve env file in
  let miss : command bool :=
    this <~ getThis ;;;
    setThis {| accessToken := accessToken this;
               this_baseId := this_baseId this;
               this_flags := this_flags this;
               baseMetadata := None;
               tableMetadata := None;
               shouldWriteJson := true |} ;;;
    ret false in
  if pathExists env input then
    match readJSON env input with
    | Ok json =>
        match cache_baseMetadata json, cache_tableMetadata json with
        | Some b, Some t =>
            this <~ getThis ;;;
            setThis {| accessToken := accessToken this;
                       this_baseId := this_baseId this;
                       this_flags := this_flags this;
                       baseMetadata := Some b;
                       tableMetadata := Some t;
                       shouldWriteJson := shouldWriteJson this |} ;;;
            ret true
        | _, _ => miss
        end
    | Throw e =>
        emit (LogError ("Error reading schema file: " ++ input) e) ;;; miss
    end
  else
    emit (Log ("Schema file does not exist yet: " ++ input)) ;;; miss.

(** The method [getTableMetadata]: the cached or fetched table list, parsed,
    then the selection embedded as [getTableMetadata] above. *)
Definition Main_getTableMetadata (allowlist : option (list string))
  : command (list TableMetadata) :=
  this <~ getThis ;;;
  res <~ match tableMetadata this with
         | Some res => ret res
         | None =>
             res <~ fetchAirtableApi
                      (AIRTABLE_API_BASE_META_PATH ++ "/" ++ this_baseId this
                       ++ "/tables") ;;;
             this <~ getThis ;;;
             setThis {| accessToken := accessToken this;
                        this_baseId := this_baseId this;
                        this_flags := this_flags this;
                        baseMetadata := baseMetadata this;
                        tableMetadata := Some res;
                        shouldWriteJson := shouldWriteJson this |} ;;;
             ret res
         end ;;;
  tables <~ lift (parseTableList env res) ;;;
  lift (getTableMetadata tables allowlist).

(** The method [getBaseMetadata], likewise. *)
Definition Main_getBaseMetadata : command BaseMetadata :=
  this <~ getThis ;;;
  res <~ match baseMetadata this with
         | Some res => ret res
         | None =>
             res <~ fetchAirtableApi AIRTABLE_API_BASE_META_PATH ;;;
             this <~ getThis ;;;
             setThis {| accessToken := accessToken this;
                        this_baseId := this_baseId this;
                        this_flags := this_flags this;
                        baseMetadata := Some res;
                        tableMetadata := tableMetadata this;
                        shouldWriteJson := shouldWriteJson this |} ;;;
             ret res
         end ;;;
  bases <~ lift (parseBaseList env res) ;;;
  lift (getBaseMetadata bases (this_baseId this)).

(** The flags the static-typing assembler reads from [this.flags]. *)
Definition assemblerFlags (flags : CommandFlags) : Flags :=
  {| flag_controllers := flags_controllers flags; flag_id := flags_id flags |}.

(** [flags.output ?? `${paramCase(baseMeta.name)}.ts`] *)
Definition outputPath (flags : CommandFlags) (baseMeta : BaseMetadata)
  : string :=
  match flags_output flags with
  | Some output => output
  | None => paramCase (base_name baseMeta) ++ ".ts"
  end.

(** [run], after [this.parse]: [this] already holds the base id and the
    flags. *)
Definition run : command unit :=
  this <~ getThis ;;;
  let flags := this_flags this in
  usedCache <~ match flags_jsoncache flags with
               | Some file =>
                   if String.eqb file "" then ret false
                   else tryReadJsonCache file
               | None => ret false
               end ;;;
  (if usedCache then emit (Log "Using cached Airtable metadata")
   else emit (Log "Fetching Airtable metadata")) ;;;
  baseMeta <~ Main_getBaseMetadata ;;;
  tableMeta <~ Main_getTableMetadata
                 (option_map (split ","%char) (flags_tables flags)) ;;;
  data <~ (if flags_zod flags then
             emit (Log "Generating Zod schemas") ;;;
             lift (generateZodSchemas baseMeta tableMeta)
           else
             emit (Log "Generating TypeScript definitions") ;;;
             lift (generateTSDefinitions (assemblerFlags flags) baseMeta
                     tableMeta)) ;;;
  let filepath := outputPath flags baseMeta in
  let output := resolve env filepath in
  emit (EnsureFile output) ;;; lift (ensureFile env output) ;;;
  emit (WriteFile output data) ;;; lift (writeFile env output data) ;;;
  this <~ getThis ;;;
  match flags_jsoncache flags with
  | Some file =>
      if negb (String.eqb file "") && shouldWriteJson this then
        let json := {| cache_baseMetadata := baseMetadata this;
                       cache_tableMetadata := tableMetadata this |} in
        let sfile := resolve env file in
        emit (EnsureFile sfile) ;;; lift (ensureFile env sfile) ;;;
        emit (WriteJSON sfile json) ;;; lift (writeJSON env sfile json)
      else ret tt
  | None => ret tt
  end ;;;
  emit (Log "Done!").

(** The command object when [run] starts. *)
Definition newMain (token : option string) (baseId : string)
  (flags : CommandFlags) : Main :=
  {| accessToken := token; this_baseId := baseId; this_flags := flags;
     baseMetadata := None; tableMetadata := None; shouldWriteJson := false |}.

(** The cache file named by the flags exists and holds both metadata
    documents. *)
Definition usableCache (flags : CommandFlags) : Prop :=
  exists file json b t,
    flags_jsoncache flags = Some file
    /\ file <> ""
    /\ pathExists env (resolve env file) = true
    /\ readJSON env (resolve env file) = Ok json
    /\ cache_baseMetadata json = Some b
    /\ cache_tableMetadata json = Some t.

Definition isWriteFile (ev : event) : bool :=
  match ev with
  | WriteFile _ _ => true
  | _ => false
  end.

(** The request paths of the calls of [httpRequest] in a trace, in order. *)
Fixpoint requests (trace : list event) : list string :=
  match trace with
  | [] => []
  | HttpRequest reqPath :: rest => reqPath :: requests rest
  | _ :: rest => requests rest
  end.

(** The two request paths of a run. *)
Definition tablesPath (baseId : string) : string :=
  AIRTABLE_API_BASE_META_PATH ++ "/" ++ baseId ++ "/tables".

(** The two documents of the cache file that the flags name, when the file
    exists and holds both. *)
Definition cachedDocuments (flags : CommandFlags) (b t : Json) : Prop :=
  exists file json,
    flags_jsoncache flags = Some file
    /\ file <> ""
    /\ pathExists env (resolve env file) = true
    /\ readJSON env (resolve env file) = Ok json
    /\ cache_baseMetadata json = Some b
    /\ cache_tableMetadata json = Some t.

(** The answers to the two requests of a run, made with a non-empty access
    token. *)
Definition fetchedDocuments (token : option string) (baseId : string)
  (b t : Json) : Prop :=
  exists tok,
    token = Some tok
    /\ tok <> ""
    /\ httpRequest env AIRTABLE_API_BASE_META_PATH tok = Ok b
    /\ httpRequest env (tablesPath baseId) tok = Ok t.

(** The list of bases [b] and the list of tables [t] a run works on: the
    documents of the cache file when it is usable, the fetched ones
    otherwise. *)
Definition runDocuments (token : option string) (baseId : string)
  (flags : CommandFlags) (b t : Json) : Prop :=
  cachedDocuments flags b t
  \/ (~ usableCache flags /\ fetchedDocuments token baseId b t).

Definition noTokenMessage : string :=
  "No Airtable Access Token token provided. Make sure to set the AIRTABLE_TYPEGEN_ACCESS_TOKEN environment variable.".

(** * Properties *)

#[local] Set Default Proof Using "Type".

(** ** The dispatch on the tag *)

Lemma lookupTag_some_in (tags : list (string * FieldType)) (s : string)
  (ty : FieldType) :
  lookupTag tags s = Some ty -> In s (map fst tags).
Proof.
  induction tags as [|[k v] tags IH]; simpl; [discriminate|].
  destruct (String.eqb_spec s k) as [->|_]; [now left | right; auto].
Qed.

Lemma lookupTag_none_iff (tags : list (string * FieldType)) (s : string) :
  lookupTag tags s = None <-> ~ In s (map fst tags).
Proof.
  induction tags as [|[k v] tags IH]; simpl.
  { split; [intros _ [] | reflexivity]. }
  destruct (String.eqb_spec s k) as [->|Hne].
  - split; [discriminate | intros H; exfalso; apply H; now left].
  - rewrite IH. split.
    + intros H [Heq|Hin]; [congruence | exact (H Hin)].
    + intros H Hin. apply H. now right.
Qed.

Lemma switchOnType_outside (s : string) :
  ~ inEnumeration s -> switchOnType s = None.
Proof. apply lookupTag_none_iff. Qed.

Lemma switchOnType_inside (s : string) :
  inEnumeration s -> exists ty, switchOnType s = Some ty.
Proof.
  intros Hin. destruct (switchOnType s) as [ty|] eqn:E; [now exists ty|].
  apply lookupTag_none_iff in E. contradiction.
Qed.

(** Both mappers return normally or raise; on a tag of the enumeration the
    static-typing mapper can only raise [TypeError]. *)
Lemma getZodType_inside (table : TableMetadata) (field : FieldMetadata) :
  inEnumeration (field_type field) ->
  exists s, getZodType table field = Ok s.
Proof.
  intros Hin. destruct (switchOnType_inside _ Hin) as [ty E].
  unfold getZodType. rewrite E.
  destruct ty; try (eexists; reflexivity);
    destruct (field_options field) as [o|]; try (eexists; reflexivity);
    destruct (precision o) as [[| |]|]; eexists; reflexivity.
Qed.

Lemma getTsForFieldType_inside (type : string) (tag : FieldType) :
  switchOnType type = Some tag ->
  getTsForFieldType type = Ok (printCellFormat tag).
Proof. intros E. unfold getTsForFieldType. now rewrite E. Qed.

Lemma getTsForFieldType_outside (type : string) :
  ~ inEnumeration type -> getTsForFieldType type = Throw TypeError.
Proof.
  intros H. unfold getTsForFieldType.
  now rewrite (switchOnType_outside _ H).
Qed.

Lemma getTsForFieldType_cases (type : string) :
  (exists tag,
      switchOnType type = Some tag
      /\ getTsForFieldType type = Ok (printCellFormat tag))
  \/ (~ inEnumeration type /\ getTsForFieldType type = Throw TypeError).
Proof.
  destruct (switchOnType type) as [tag|] eqn:E.
  - left. exists tag. split; [reflexivity|].
    now apply getTsForFieldType_inside.
  - right. apply lookupTag_none_iff in E. split; [exact E|].
    now apply getTsForFieldType_outside.
Qed.

Lemma getTsType_inside (field : FieldMetadata) (opts : TsOptions) :
  inEnumeration (field_type field) ->
  (exists s, getTsType field opts = Ok s)
  \/ getTsType field opts = Throw TypeError.
Proof.
  intros Hin. destruct (switchOnType_inside _ Hin) as [ty E].
  pose proof (getTsForFieldType_inside _ _ E) as Hown.
  unfold getTsType. rewrite E.
  destruct ty; rewrite ?Hown;
    try (left; eexists; reflexivity);
    try (destruct (useAirtableLibraryTypes opts); left; eexists;
         reflexivity);
    try (destruct (getTsForFieldType_cases (derivedType field))
           as [[tag [_ ->]]|[_ ->]]; [left; eexists; reflexivity | now right]);
    unfold fieldChoices;
    destruct (field_options field) as [o|]; simpl; auto;
    destruct (choices o); simpl; auto; left; eexists; reflexivity.
Qed.

(** C3. A tag outside the enumeration makes both mappers throw the error
    whose message is [Unrecognized field type: <tag> (on field '<name>')],
    with the raw tag and the field's name; on a tag of the enumeration
    neither mapper throws an [Error] at all. *)
Theorem unrecognized_field_type (table : TableMetadata)
  (field : FieldMetadata) (opts : TsOptions) :
  (~ inEnumeration (field_type field) ->
   getZodType table field
   = Throw (Error ("Unrecognized field type: " ++ field_type field
                   ++ " (on field '" ++ field_name field ++ "')"))
   /\ getTsType field opts
      = Throw (Error ("Unrecognized field type: " ++ field_type field
                      ++ " (on field '" ++ field_name field ++ "')")))
  /\ (inEnumeration (field_type field) ->
      forall message,
        getZodType table field <> Throw (Error message)
        /\ getTsType field opts <> Throw (Error message)).
Proof.
  split.
  - intros Hout. apply switchOnType_outside in Hout.
    unfold getZodType, getTsType. rewrite Hout. split; reflexivity.
  - intros Hin message. split.
    + destruct (getZodType_inside table field Hin) as [s ->]. discriminate.
    + destruct (getTsType_inside field opts Hin) as [[s ->]| ->];
        discriminate.
Qed.

(** ** The mapping rules *)

(** The derived result type the options of a field declare, if any:
    [field.options?.result?.type]. *)
Lemma derivedType_declared (field : FieldMetadata) (o : FieldOptions)
  (r : FieldResult) (type : string) :
  field_options field = Some o -> options_result o = Some r ->
  result_type r = Some type -> derivedType field = type.
Proof. unfold derivedType. now intros -> -> ->. Qed.

Lemma derivedType_fallback (field : FieldMetadata) :
  field_options field = None
  \/ (exists o, field_options field = Some o /\ options_result o = None)
  \/ (exists o r,
         field_options field = Some o /\ options_result o = Some r
         /\ result_type r = None) ->
  derivedType field = field_type field.
Proof.
  unfold derivedType.
  intros [->|[[o [-> ->]]|[o [r [-> [-> ->]]]]]]; reflexivity.
Qed.

(** C9. On a computed-derived field (created time, formula, last-modified
    time, lookup, rollup) the static-typing mapper returns the entry of the
    cell-format table for the derived result type when the options declare
    one, and raises a [TypeError] when the declared type is not a key of the
    table; when no result type is declared (no options, no result, or a
    result without type) it returns the entry of the field's own tag. *)
Theorem computed_field_result_type (field : FieldMetadata)
  (opts : TsOptions) :
  In (field_type field) computedDerivedTags ->
  (forall o r type,
      field_options field = Some o -> options_result o = Some r ->
      result_type r = Some type ->
      (forall tag,
          switchOnType type = Some tag ->
          getTsType field opts = Ok (printCellFormat tag))
      /\ (~ inEnumeration type -> getTsType field opts = Throw TypeError))
  /\ (field_options field = None
      \/ (exists o, field_options field = Some o /\ options_result o = None)
      \/ (exists o r,
             field_options field = Some o /\ options_result o = Some r
             /\ result_type r = None) ->
      exists tag,
        switchOnType (field_type field) = Some tag
        /\ getTsType field opts = Ok (printCellFormat tag)).
Proof.
  intros Htag.
  assert (Hbranch :
            getTsType field opts = getTsForFieldType (derivedType field)
            /\ inEnumeration (field_type field)).
  { unfold getTsType, computedDerivedTags, inEnumeration in *.
    simpl in Htag |- *.
    destruct Htag as [H|[H|[H|[H|[H|[]]]]]]; rewrite <- H;
      (split; [reflexivity | auto 40]). }
  destruct Hbranch as [Hbranch Hin]. rewrite Hbranch. split.
  - intros o r type Ho Hr Ht.
    rewrite (derivedType_declared field o r type Ho Hr Ht). split.
    + apply getTsForFieldType_inside.
    + apply getTsForFieldType_outside.
  - intros Hnone. rewrite (derivedType_fallback field Hnone).
    destruct (switchOnType_inside _ Hin) as [tag E]. exists tag.
    split; [exact E | now apply getTsForFieldType_inside].
Qed.

(** C4, as the code has it.  Schema-validator dialect: a number, percent or
    currency field maps to the positive-integer validator when its precision
    is zero and to the positive-real validator otherwise (precision non-zero
    or missing); a rating maps to the validator bounded to [0,5]; a duration
    to the unconstrained number.  Static-typing dialect: each of these fields
    maps to the printed cell format of its tag, whatever the precision. *)
Theorem numeric_mapping (table : TableMetadata) (field : FieldMetadata)
  (opts : TsOptions) :
  (In (field_type field) precisionTags ->
   (forall o,
       field_options field = Some o -> precision o = Some 0%Z ->
       getZodType table field = Ok "z.number().int().positive()")
   /\ ((forall o, field_options field = Some o -> precision o <> Some 0%Z) ->
       getZodType table field = Ok "z.number().positive()"))
  /\ (field_type field = "rating" ->
      getZodType table field = Ok "z.number().min(0).max(5)")
  /\ (field_type field = "duration" ->
      getZodType table field = Ok "z.number()")
  /\ (In (field_type field) (precisionTags +++ ["rating"; "duration"]) ->
      exists tag,
        switchOnType (field_type field) = Some tag
        /\ getTsType field opts = Ok (printCellFormat tag)).
Proof.
  repeat split.
  - intros o Ho Hp. unfold getZodType, precisionTags in *. simpl in H.
    destruct H as [H|[H|[H|[]]]]; rewrite <- H; simpl; rewrite Ho, Hp;
      reflexivity.
  - intros Hp. unfold getZodType, precisionTags in *. simpl in H.
    assert (Hnum : match field_options field with
                   | Some o =>
                       match precision o with
                       | Some 0%Z => Ok "z.number().int().positive()"
                       | _ => Ok "z.number().positive()"
                       end
                   | None => Ok "z.number().positive()"
                   end = Ok "z.number().positive()").
    { destruct (field_options field) as [o|]; [|reflexivity].
      specialize (Hp o eq_refl).
      destruct (precision o) as [[| |]|]; congruence. }
    destruct H as [H|[H|[H|[]]]]; rewrite <- H; simpl; exact Hnum.
  - intros H. unfold getZodType. rewrite H. reflexivity.
  - intros H. unfold getZodType. rewrite H. reflexivity.
  - intros H. unfold getTsType, precisionTags in *. simpl in H.
    destruct H as [H|[H|[H|[H|[H|[]]]]]]; rewrite <- H; eexists;
      split; reflexivity.
Qed.

Lemma switchOnType_sound (s : string) (ty : FieldType) :
  switchOnType s = Some ty -> In (s, ty) FieldTypeTags.
Proof.
  unfold switchOnType. generalize FieldTypeTags as tags.
  induction tags as [|[k v] tags IH]; simpl; [discriminate|].
  destruct (String.eqb_spec s k) as [->|_].
  - intros [= ->]. now left.
  - intros H. right. auto.
Qed.

Lemma switchOnType_singleSelect (s : string) :
  switchOnType s = Some singleSelect -> s = "singleSelect".
Proof.
  intros H. apply switchOnType_sound in H. simpl in H.
  repeat (destruct H as [H|H]; [congruence|]). contradiction.
Qed.

Lemma switchOnType_multipleSelects (s : string) :
  switchOnType s = Some multipleSelects -> s = "multipleSelects".
Proof.
  intros H. apply switchOnType_sound in H. simpl in H.
  repeat (destruct H as [H|H]; [congruence|]). contradiction.
Qed.

Lemma switchOnType_computed (s : string) (ty : FieldType) :
  switchOnType s = Some ty ->
  In ty [createdTime; formula; lastModifiedTime; multipleLookupValues;
         rollup] ->
  In s computedDerivedTags.
Proof.
  intros H Hty. apply switchOnType_sound in H. simpl in H.
  repeat (destruct H as [H|H];
          [injection H as <- <-; simpl in Hty |- *;
           repeat (destruct Hty as [Hty|Hty]; [try discriminate Hty|]);
           try contradiction; auto 10|]).
  contradiction.
Qed.

Lemma append_nonempty_r (a b : string) : b <> "" -> a ++ b <> "".
Proof. destruct a; simpl; [auto | discriminate]. Qed.

(** ** Reference fields *)

Lemma pop_in {A : Type} (l : list A) (x : A) : pop l = Some x -> In x l.
Proof.
  induction l as [|a [|b l] IH]; simpl in *.
  - discriminate.
  - intros [= ->]. now left.
  - intros H. right. apply IH. exact H.
Qed.

Lemma pop_none {A : Type} (l : list A) : pop l = None -> l = [].
Proof.
  induction l as [|a [|b l] IH]; simpl in *; [reflexivity | discriminate |].
  intros H. specialize (IH H). discriminate.
Qed.

Lemma linkedTables_ok (tables : list TableMetadata) (field : FieldMetadata)
  (o : FieldOptions) :
  field_options field = Some o ->
  linkedTables tables field
  = Ok (filter (fun t =>
                  match linkedTableId o with
                  | Some l => String.eqb (table_id t) l
                  | None => false
                  end) tables).
Proof.
  intros Ho. unfold linkedTables. rewrite Ho. destruct tables; reflexivity.
Qed.

Lemma append_assoc (a b c : string) : (a ++ b) ++ c = a ++ b ++ c.
Proof. induction a as [|ch a IH]; simpl; [reflexivity | now rewrite IH]. Qed.

Lemma identifier_name_nonempty (s : string) : String.eqb (s ++ "Id") "" = false.
Proof. destruct s; reflexivity. Qed.

(** C1, as the code has it.  For a reference field that carries its options:
    in the static-typing dialect with strong identifiers, the type is the
    array of the identifier type [<PascalName>Id] of the table of the
    generation set that has the linked id, and [Array<AirtableUid>] when no
    table of the set has it; in both cases the mapper returns normally.
    Without strong identifiers the type is the printed cell format of the
    tag.  In the schema-validator dialect the type is [z.array(z.string())]
    whatever the generation set. *)
Theorem reference_field_type (tables : list TableMetadata)
  (table : TableMetadata) (field : FieldMetadata) (o : FieldOptions)
  (opts : TsOptions) :
  field_type field = "multipleRecordLinks" ->
  field_options field = Some o ->
  (forall target,
      In target tables ->
      linkedTableId o = Some (table_id target) ->
      (forall other,
          In other tables -> table_id other = table_id target ->
          other = target) ->
      tsFieldType true tables field opts
      = Ok ("Array<" ++ pascalCase (table_name target) ++ "Id>"))
  /\ ((forall other,
          In other tables -> linkedTableId o <> Some (table_id other)) ->
      tsFieldType true tables field opts = Ok "Array<AirtableUid>")
  /\ tsFieldType false tables field opts
     = Ok (printCellFormat multipleRecordLinks)
  /\ getZodType table field = Ok "z.array(z.string())".
Proof.
  intros Htag Ho.
  assert (Hts : getTsType field opts
                = Ok (printCellFormat multipleRecordLinks)).
  { unfold getTsType. rewrite Htag. reflexivity. }
  split; [|split; [|split]].
  - intros target Hin Hlink Huniq.
    unfold tsFieldType. rewrite Hts, Htag. simpl.
    rewrite (linkedTables_ok tables field o Ho). simpl.
    rewrite Hlink.
    set (linked := filter _ tables).
    assert (Hmem : In target linked).
    { apply filter_In. split; [exact Hin | apply String.eqb_refl]. }
    destruct (pop (map (fun t => pascalCase (table_name t) ++ "Id") linked))
      as [s|] eqn:Hpop.
    + apply pop_in in Hpop. apply in_map_iff in Hpop.
      destruct Hpop as [t [<- Ht]]. apply filter_In in Ht.
      destruct Ht as [Ht Hid]. apply String.eqb_eq in Hid.
      rewrite (Huniq t Ht Hid). rewrite identifier_name_nonempty.
      simpl. now rewrite append_assoc.
    + apply pop_none in Hpop. apply map_eq_nil in Hpop.
      rewrite Hpop in Hmem. contradiction.
  - intros Hnone.
    unfold tsFieldType. rewrite Hts, Htag. simpl.
    rewrite (linkedTables_ok tables field o Ho). simpl.
    assert (Hempty : filter (fun t =>
                               match linkedTableId o with
                               | Some l => String.eqb (table_id t) l
                               | None => false
                               end) tables = []).
    { induction tables as [|t ts IH]; [reflexivity|]. simpl.
      destruct (linkedTableId o) as [l|] eqn:Hl.
      - destruct (String.eqb_spec (table_id t) l) as [Heq|_].
        + exfalso. apply (Hnone t); [now left | congruence].
        + apply IH. intros other Hin. apply Hnone. now right.
      - apply IH. intros other Hin. apply Hnone. now right. }
    rewrite Hempty. reflexivity.
  - unfold tsFieldType. rewrite Hts. reflexivity.
  - unfold getZodType. rewrite Htag. reflexivity.
Qed.

(** ** Table selection *)

Lemma includes_resolvesTo (allowlist : list string) (table : TableMetadata) :
  includes allowlist (table_id table) || includes allowlist (table_name table)
  = existsb (fun entry => resolvesTo entry table) allowlist.
Proof.
  unfold includes, resolvesTo.
  induction allowlist as [|e al IH]; simpl; [reflexivity|].
  rewrite <- IH.
  destruct (table_id table =? e)%string, (table_name table =? e)%string;
    simpl; try reflexivity;
    destruct (existsb (String.eqb (table_id table)) al); reflexivity.
Qed.

(** The tables [getTableMetadata] keeps, and what it returns. *)
Lemma getTableMetadata_unfold (fetched : list TableMetadata)
  (allowlist : list string) :
  let selected :=
    filter (fun table => existsb (fun entry => resolvesTo entry table)
                           allowlist) fetched in
  getTableMetadata fetched (Some allowlist)
  = if Nat.eqb (List.length selected) (List.length allowlist)
    then Ok selected
    else Throw (CLIError ("Could not find all tables:

Requested: " ++ join ", " allowlist ++ "
Found: " ++ join ", " (map table_name selected))).
Proof.
  intros selected. unfold getTableMetadata.
  rewrite (filter_ext _ _ (includes_resolvesTo allowlist) fetched).
  fold selected. destruct (Nat.eqb _ _); reflexivity.
Qed.

(** ** The assemblers *)

Lemma bind_ok {A B : Type} (r : result A) (k : A -> result B) (b : B) :
  bind r k = Ok b -> exists a, r = Ok a /\ k a = Ok b.
Proof. destruct r as [a|e]; simpl; [now exists a | discriminate]. Qed.

Lemma mapM_ok {A B : Type} (f : A -> result B) (l : list A) (bs : list B) :
  mapM f l = Ok bs -> Forall2 (fun a b => f a = Ok b) l bs.
Proof.
  revert bs. induction l as [|a l IH]; simpl; intros bs H.
  - injection H as <-. constructor.
  - apply bind_ok in H. destruct H as [b [Hb H]].
    apply bind_ok in H. destruct H as [bs' [Hbs H]].
    injection H as <-. constructor; auto.
Qed.

Lemma zodFieldLine_entry (table : TableMetadata) (field : FieldMetadata)
  (entry : string) :
  zodFieldLine table field = Ok entry ->
  zodEntryOf table field (negb (isReadonlyField field)) entry.
Proof.
  unfold zodFieldLine. intros H. apply bind_ok in H.
  destruct H as [fieldType [Hty H]]. injection H as <-.
  exists fieldType. split; [exact Hty|].
  destruct (isReadonlyField field); reflexivity.
Qed.

Lemma tsFieldLine_entry (genIds : bool) (tables : list TableMetadata)
  (tsOpts : TsOptions) (field : FieldMetadata) (entry : string) :
  tsFieldLine genIds tables tsOpts field = Ok entry ->
  tsEntryOf genIds tables tsOpts field (negb (isReadonlyField field)) entry.
Proof.
  unfold tsFieldLine. intros H. apply bind_ok in H.
  destruct H as [fieldType [Hty H]]. injection H as <-.
  exists fieldType. split; [exact Hty|].
  destruct (isReadonlyField field); reflexivity.
Qed.

Lemma zodTableBlock_ok (table : TableMetadata) (block : list string) :
  zodTableBlock table = Ok block ->
  exists enums entries,
    mapM (zodEnumDecl table) (table_fields table) = Ok enums
    /\ mapM (zodFieldLine table) (table_fields table) = Ok entries
    /\ block = concat enums +++ zodBlockOpen table +++ entries
               +++ zodBlockClose table.
Proof.
  unfold zodTableBlock. intros H. apply bind_ok in H.
  destruct H as [enums [He H]]. apply bind_ok in H.
  destruct H as [entries [Hn H]]. injection H as <-.
  now exists enums, entries.
Qed.

Lemma tsTableBlock_ok (controllers genIds : bool)
  (tables : list TableMetadata) (table : TableMetadata)
  (block : list string) :
  tsTableBlock controllers genIds tables table = Ok block ->
  exists entries,
    mapM (tsFieldLine genIds tables
            {| useAirtableLibraryTypes := controllers |})
         (table_fields table) = Ok entries
    /\ block = tsBlockOpen controllers table +++ entries +++ ["}"; ""].
Proof.
  unfold tsTableBlock. intros H. apply bind_ok in H.
  destruct H as [entries [Hn H]]. injection H as <-.
  now exists entries.
Qed.

Lemma zodTableBlock_blockOf (table : TableMetadata) (block : list string) :
  zodTableBlock table = Ok block -> zodBlockOf table block.
Proof.
  intros H. apply zodTableBlock_ok in H.
  destruct H as [enums [entries [He [Hn ->]]]].
  exists enums, entries. split; [exact He|]. split; [reflexivity|].
  apply mapM_ok in Hn.
  eapply Forall2_impl; [|exact Hn]. apply zodFieldLine_entry.
Qed.

Lemma tsTableBlock_blockOf (controllers genIds : bool)
  (tables : list TableMetadata) (table : TableMetadata)
  (block : list string) :
  tsTableBlock controllers genIds tables table = Ok block ->
  tsBlockOf controllers genIds tables table block.
Proof.
  intros H. apply tsTableBlock_ok in H. destruct H as [entries [Hn ->]].
  exists entries. split; [reflexivity|].
  apply mapM_ok in Hn.
  eapply Forall2_impl; [|exact Hn]. apply tsFieldLine_entry.
Qed.

Lemma generateZodLines_ok (tables : list TableMetadata)
  (lines : list string) :
  generateZodLines tables = Ok lines ->
  exists blocks,
    mapM zodTableBlock tables = Ok blocks
    /\ lines = zodPreamble tables +++ concat blocks.
Proof.
  unfold generateZodLines. intros H. apply bind_ok in H.
  destruct H as [blocks [Hb H]]. injection H as <-. now exists blocks.
Qed.

Lemma generateTSLines_ok (flags : Flags) (base : BaseMetadata)
  (tables : list TableMetadata) (lines : list string) :
  generateTSLines flags base tables = Ok lines ->
  exists blocks,
    mapM (tsTableBlock (flag_controllers flags) (flag_id flags) tables)
         tables = Ok blocks
    /\ lines = tsPreamble (flag_controllers flags) tables +++ concat blocks
               +++ (if flag_controllers flags
                    then tsControllers base tables else []).
Proof.
  unfold generateTSLines. intros H. apply bind_ok in H.
  destruct H as [blocks [Hb H]]. injection H as <-. now exists blocks.
Qed.

Lemma generateZodSchemas_ok (base : BaseMetadata)
  (tables : list TableMetadata) (out : string) :
  generateZodSchemas base tables = Ok out ->
  exists blocks,
    mapM zodTableBlock tables = Ok blocks
    /\ out = join newline (zodPreamble tables +++ concat blocks).
Proof.
  unfold generateZodSchemas. intros H. apply bind_ok in H.
  destruct H as [lines [Hl H]]. injection H as <-.
  apply generateZodLines_ok in Hl. destruct Hl as [blocks [Hb ->]].
  now exists blocks.
Qed.

Lemma generateTSDefinitions_ok (flags : Flags) (base : BaseMetadata)
  (tables : list TableMetadata) (out : string) :
  generateTSDefinitions flags base tables = Ok out ->
  exists blocks,
    mapM (tsTableBlock (flag_controllers flags) (flag_id flags) tables)
         tables = Ok blocks
    /\ out = join newline
               (tsPreamble (flag_controllers flags) tables +++ concat blocks
                +++ (if flag_controllers flags
                     then tsControllers base tables else [])).
Proof.
  unfold generateTSDefinitions. intros H. apply bind_ok in H.
  destruct H as [lines [Hl H]]. injection H as <-.
  apply generateTSLines_ok in Hl. destruct Hl as [blocks [Hb ->]].
  now exists blocks.
Qed.

Lemma mapM_of_Forall2 {A B : Type} (f : A -> result B) (l : list A)
  (bs : list B) :
  Forall2 (fun a b => f a = Ok b) l bs -> mapM f l = Ok bs.
Proof.
  induction 1 as [|a b l bs Hab _ IH]; simpl; [reflexivity|].
  rewrite Hab, IH. reflexivity.
Qed.

Lemma zodEntryOf_line (table : TableMetadata) (field : FieldMetadata)
  (entry : string) :
  zodEntryOf table field (negb (isReadonlyField field)) entry ->
  zodFieldLine table field = Ok entry.
Proof.
  intros [fieldType [Hty ->]]. unfold zodFieldLine. rewrite Hty. simpl.
  destruct (isReadonlyField field); reflexivity.
Qed.

Lemma zodBlockOf_block (table : TableMetadata) (block : list string) :
  zodBlockOf table block -> zodTableBlock table = Ok block.
Proof.
  intros [enums [entries [He [-> Hentries]]]]. unfold zodTableBlock.
  rewrite He. simpl.
  rewrite (mapM_of_Forall2 _ _ entries); [reflexivity|].
  eapply Forall2_impl; [|exact Hentries]. apply zodEntryOf_line.
Qed.

Lemma tsEntryOf_line (genIds : bool) (tables : list TableMetadata)
  (tsOpts : TsOptions) (field : FieldMetadata) (entry : string) :
  tsEntryOf genIds tables tsOpts field (negb (isReadonlyField field)) entry ->
  tsFieldLine genIds tables tsOpts field = Ok entry.
Proof.
  intros [fieldType [Hty ->]]. unfold tsFieldLine. rewrite Hty. simpl.
  destruct (isReadonlyField field); reflexivity.
Qed.

Lemma tsBlockOf_block (controllers genIds : bool)
  (tables : list TableMetadata) (table : TableMetadata)
  (block : list string) :
  tsBlockOf controllers genIds tables table block ->
  tsTableBlock controllers genIds tables table = Ok block.
Proof.
  intros [entries [-> Hentries]]. unfold tsTableBlock.
  rewrite (mapM_of_Forall2 _ _ entries); [reflexivity|].
  eapply Forall2_impl; [|exact Hentries]. apply tsEntryOf_line.
Qed.

(** C2. In both dialects the generated text is the join of the preamble and
    of one block per table, in table order, and the block of a table holds
    one entry per field, in field order; the entry of a field that
    [isReadonlyField] classifies readonly carries no optionality marker
    ([.optional()] in the schema-validator dialect, [?] in the static-typing
    dialect), and the entry of every other field carries it.  Each assembler
    returns exactly such a text whenever the blocks can be built: the type of
    every field and, in the schema-validator dialect, the enum declarations
    of every table. *)
Theorem optionality_marker (tables : list TableMetadata) :
  (forall base out,
      generateZodSchemas base tables = Ok out
      <-> exists blocks,
            out = join newline (zodPreamble tables +++ concat blocks)
            /\ Forall2 zodBlockOf tables blocks)
  /\ (forall flags base out,
         generateTSDefinitions flags base tables = Ok out
         <-> exists blocks,
               out = join newline
                       (tsPreamble (flag_controllers flags) tables
                        +++ concat blocks
                        +++ (if flag_controllers flags
                             then tsControllers base tables else []))
               /\ Forall2 (tsBlockOf (flag_controllers flags)
                             (flag_id flags) tables) tables blocks).
Proof.
  split.
  - intros base out. split.
    + intros H. apply generateZodSchemas_ok in H.
      destruct H as [blocks [Hb ->]]. exists blocks. split; [reflexivity|].
      apply mapM_ok in Hb. eapply Forall2_impl; [|exact Hb].
      apply zodTableBlock_blockOf.
    + intros [blocks [-> Hblocks]].
      unfold generateZodSchemas, generateZodLines.
      rewrite (mapM_of_Forall2 _ _ blocks); [reflexivity|].
      eapply Forall2_impl; [|exact Hblocks]. apply zodBlockOf_block.
  - intros flags base out. split.
    + intros H. apply generateTSDefinitions_ok in H.
      destruct H as [blocks [Hb ->]]. exists blocks. split; [reflexivity|].
      apply mapM_ok in Hb. eapply Forall2_impl; [|exact Hb].
      intros table block. apply tsTableBlock_blockOf.
    + intros [blocks [-> Hblocks]].
      unfold generateTSDefinitions, generateTSLines.
      rewrite (mapM_of_Forall2 _ _ blocks); [reflexivity|].
      eapply Forall2_impl; [|exact Hblocks].
      intros table block. apply tsBlockOf_block.
Qed.

(** ** Shared shapes *)

Lemma lastChar_append (a b : string) :
  b <> "" -> lastChar (a ++ b) = lastChar b.
Proof.
  intros Hb. induction a as [|c a IH]; simpl; [reflexivity|].
  destruct (a ++ b) as [|c' rest] eqn:E.
  - exfalso. destruct a; simpl in E; [contradiction | discriminate].
  - exact IH.
Qed.

Lemma ends_with_not_zodShape (a b : string) :
  b <> "" -> lastChar b <> Some ")"%char -> ~ zodShape (a ++ b).
Proof.
  intros Hb Hlast [H|H]; apply (f_equal lastChar) in H;
    rewrite (lastChar_append a b Hb) in H; apply Hlast; rewrite H;
    reflexivity.
Qed.

Lemma enum_open_not_zodShape (enumName : string) :
  ~ zodShape ("export const " ++ enumName ++ " = z.enum([").
Proof.
  apply ends_with_not_zodShape.
  - apply append_nonempty_r. discriminate.
  - rewrite lastChar_append by discriminate. discriminate.
Qed.

Lemma zodBlockOpen_not_zodShape (table : TableMetadata) (s : string) :
  In s (zodBlockOpen table) -> ~ zodShape s.
Proof.
  intros [<-|[]]. apply ends_with_not_zodShape.
  - apply append_nonempty_r. discriminate.
  - rewrite lastChar_append by discriminate. discriminate.
Qed.

Lemma zodBlockClose_not_zodShape (table : TableMetadata) (s : string) :
  In s (zodBlockClose table) -> ~ zodShape s.
Proof.
  intros [<-|[<-|[<-|[]]]] [H|H]; discriminate H.
Qed.

Lemma zodEnumDecl_not_zodShape (table : TableMetadata)
  (field : FieldMetadata) (decl : list string) (s : string) :
  zodEnumDecl table field = Ok decl -> In s decl -> ~ zodShape s.
Proof.
  unfold zodEnumDecl. destruct (isSelect field).
  - intros H. apply bind_ok in H. destruct H as [cs [_ H]].
    injection H as <-. intros Hin.
    destruct Hin as [<-|Hin].
    + apply (enum_open_not_zodShape (getFieldEnumName table field)).
    + apply in_app_iff in Hin. destruct Hin as [Hin|[<-|[<-|[]]]].
      * apply in_map_iff in Hin. destruct Hin as [c [<- _]].
        intros [H|H]; discriminate H.
      * intros [H|H]; discriminate H.
      * intros [H|H]; discriminate H.
  - intros [= <-] [].
Qed.

Lemma zodFieldLine_not_zodShape (table : TableMetadata)
  (field : FieldMetadata) (s : string) :
  zodFieldLine table field = Ok s -> ~ zodShape s.
Proof.
  intros H. apply zodFieldLine_entry in H. destruct H as [ty [_ ->]].
  intros [H|H]; discriminate H.
Qed.

Lemma Forall2_in_r {A B : Type} (R : A -> B -> Prop) (la : list A)
  (lb : list B) (b : B) :
  Forall2 R la lb -> In b lb -> exists a, In a la /\ R a b.
Proof.
  induction 1 as [|a' b' la lb HR _ IH]; simpl; [contradiction|].
  intros [<-|Hin].
  - exists a'. auto.
  - destruct (IH Hin) as [a [Ha HRa]]. exists a. auto.
Qed.

Lemma mapM_in {A B : Type} (f : A -> result B) (l : list A) (bs : list B)
  (b : B) :
  mapM f l = Ok bs -> In b bs -> exists a, In a l /\ f a = Ok b.
Proof.
  intros H Hin. apply mapM_ok in H.
  exact (Forall2_in_r _ l bs b H Hin).
Qed.

Lemma zodTableBlock_not_zodShape (table : TableMetadata)
  (block : list string) (s : string) :
  zodTableBlock table = Ok block -> In s block -> ~ zodShape s.
Proof.
  intros H. apply zodTableBlock_ok in H.
  destruct H as [enums [entries [He [Hn ->]]]]. intros Hin.
  apply in_app_iff in Hin. destruct Hin as [Hin|Hin].
  { apply in_concat in Hin. destruct Hin as [decl [Hdecl Hs]].
    destruct (mapM_in _ _ _ _ He Hdecl) as [field [_ Hf]].
    now apply (zodEnumDecl_not_zodShape table field decl). }
  apply in_app_iff in Hin. destruct Hin as [Hin|Hin].
  { now apply (zodBlockOpen_not_zodShape table). }
  apply in_app_iff in Hin. destruct Hin as [Hin|Hin].
  { destruct (mapM_in _ _ _ _ Hn Hin) as [field [_ Hf]].
    now apply (zodFieldLine_not_zodShape table field). }
  now apply (zodBlockClose_not_zodShape table).
Qed.

Lemma blocks_not_shape {A : Type} (f : A -> result (list string))
  (shape : string -> Prop) (l : list A) (blocks : list (list string)) :
  (forall a block s, f a = Ok block -> In s block -> ~ shape s) ->
  mapM f l = Ok blocks ->
  forall s, In s (concat blocks) -> ~ shape s.
Proof.
  intros Hf Hb s Hin. apply in_concat in Hin.
  destruct Hin as [block [Hblock Hs]].
  destruct (mapM_in _ _ _ _ Hb Hblock) as [a [_ Ha]].
  now apply (Hf a block s).
Qed.

Lemma occurrences_none (fragment : string) (lines : list string) :
  (forall s, In s lines -> s <> fragment) -> occurrences fragment lines = 0.
Proof.
  intros H. unfold occurrences. apply count_occ_not_In.
  intros Hin. now apply (H fragment Hin).
Qed.


Lemma anyField_existsb (p : FieldMetadata -> bool)
  (tables : list TableMetadata) :
  anyField p tables <-> existsb p (allFields tables) = true.
Proof.
  unfold anyField, allFields. rewrite existsb_exists. split.
  - intros [table [field [Ht [Hf Hp]]]]. exists field. split; [|exact Hp].
    apply in_concat. exists (table_fields table). split; [|exact Hf].
    now apply in_map.
  - intros [field [Hin Hp]]. apply in_concat in Hin.
    destruct Hin as [fs [Hfs Hf]]. apply in_map_iff in Hfs.
    destruct Hfs as [table [<- Ht]]. now exists table, field.
Qed.

Lemma tsBlockOpen_not_tsShape (controllers : bool) (table : TableMetadata)
  (s : string) :
  In s (tsBlockOpen controllers table) -> ~ tsShape s.
Proof.
  intros [<-|[<-|[<-|[<-|[<-|[]]]]]] [H|H]; discriminate H.
Qed.

Lemma tsFieldLine_not_tsShape (genIds : bool) (tables : list TableMetadata)
  (tsOpts : TsOptions) (field : FieldMetadata) (s : string) :
  tsFieldLine genIds tables tsOpts field = Ok s -> ~ tsShape s.
Proof.
  intros H. apply tsFieldLine_entry in H. destruct H as [ty [_ ->]].
  intros [H|H]; discriminate H.
Qed.

Lemma tsTableBlock_not_tsShape (controllers genIds : bool)
  (tables : list TableMetadata) (table : TableMetadata)
  (block : list string) (s : string) :
  tsTableBlock controllers genIds tables table = Ok block ->
  In s block -> ~ tsShape s.
Proof.
  intros H. apply tsTableBlock_ok in H. destruct H as [entries [Hn ->]].
  intros Hin. apply in_app_iff in Hin. destruct Hin as [Hin|Hin].
  { now apply (tsBlockOpen_not_tsShape controllers table). }
  apply in_app_iff in Hin. destruct Hin as [Hin|[<-|[<-|[]]]].
  - destruct (mapM_in _ _ _ _ Hn Hin) as [field [_ Hf]].
    exact (tsFieldLine_not_tsShape genIds tables _ field s Hf).
  - intros [H|H]; discriminate H.
  - intros [H|H]; discriminate H.
Qed.

Lemma tsControllers_not_tsShape (base : BaseMetadata)
  (tables : list TableMetadata) (s : string) :
  In s (tsControllers base tables) -> ~ tsShape s.
Proof.
  unfold tsControllers. cbv zeta. intros Hin.
  apply in_app_iff in Hin. destruct Hin as [[<-|[<-|[]]]|Hin].
  - intros [H|H]; discriminate H.
  - intros [H|H]; discriminate H.
  - apply in_app_iff in Hin. destruct Hin as [Hin|[<-|[<-|[]]]].
    + apply in_map_iff in Hin. destruct Hin as [x [<- _]].
      intros [H|H]; discriminate H.
    + intros [H|H]; discriminate H.
    + intros [H|H]; discriminate H.
Qed.

Lemma zodPreamble_attachment (tables : list TableMetadata) :
  occurrences AttachmentZodTmpl (zodPreamble tables)
  = if hasAttachmentField (allFields tables) then 1 else 0.
Proof.
  unfold zodPreamble.
  destruct (hasAttachmentField _), (hasCollaboratorField _); reflexivity.
Qed.

Lemma zodPreamble_collaborator (tables : list TableMetadata) :
  occurrences CollaboratorZodTmpl (zodPreamble tables)
  = if hasCollaboratorField (allFields tables) then 1 else 0.
Proof.
  unfold zodPreamble.
  destruct (hasAttachmentField _), (hasCollaboratorField _); reflexivity.
Qed.

Lemma tsPreamble_attachment (tables : list TableMetadata) :
  occurrences getAdditionalTsForAttachments (tsPreamble false tables)
  = if hasAttachmentField (allFields tables) then 1 else 0.
Proof.
  unfold tsPreamble, tsShapes.
  destruct (hasAttachmentField _), (hasCollaboratorField _); reflexivity.
Qed.

Lemma tsPreamble_collaborator (tables : list TableMetadata) :
  occurrences getAdditionalTsForCollaborators (tsPreamble false tables)
  = if hasCollaboratorField (allFields tables) then 1 else 0.
Proof.
  unfold tsPreamble, tsShapes.
  destruct (hasAttachmentField _), (hasCollaboratorField _); reflexivity.
Qed.

Lemma tsPreamble_controllers (tables : list TableMetadata) (s : string) :
  In s (tsPreamble true tables) -> ~ tsShape s.
Proof.
  intros [<-|[<-|[<-|[]]]] [H|H]; discriminate H.
Qed.

Lemma emittedOnce_intro (fragment : string) (p : FieldMetadata -> bool)
  (tables : list TableMetadata) (has : list FieldMetadata -> bool)
  (preamble rest : list string) :
  (forall fields, has fields = existsb p fields) ->
  occurrences fragment preamble
  = (if has (allFields tables) then 1 else 0) ->
  (forall s, In s rest -> s <> fragment) ->
  emittedOnce fragment (anyField p tables) preamble rest.
Proof.
  intros Hhas Hpre Hrest. unfold emittedOnce.
  rewrite Hpre, Hhas. split; [now apply occurrences_none|].
  split; intros Hany.
  - apply anyField_existsb in Hany. now rewrite Hany.
  - destruct (existsb p (allFields tables)) eqn:E; [|reflexivity].
    exfalso. apply Hany. now apply anyField_existsb.
Qed.

(** C5, as the code has it.  Let the two helpers answer whether some field
    has the attachment (collaborator) category.  In the schema-validator
    dialect, and in the static-typing dialect without the controllers flag,
    the generated text is the join of a preamble and of the per-table blocks;
    the fragment of a shared shape is pushed exactly once in the preamble
    when some field of some selected table has its category, not at all
    otherwise, and never inside a per-table block.  With the controllers flag
    the static-typing dialect pushes neither fragment. *)
Theorem shared_shapes (isAttachment isCollaborator : FieldMetadata -> bool)
  (tables : list TableMetadata) :
  (forall fields, hasAttachmentField fields = existsb isAttachment fields) ->
  (forall fields,
      hasCollaboratorField fields = existsb isCollaborator fields) ->
  (forall base out,
      generateZodSchemas base tables = Ok out ->
      exists blocks,
        mapM zodTableBlock tables = Ok blocks
        /\ out = join newline (zodPreamble tables +++ concat blocks)
        /\ emittedOnce AttachmentZodTmpl (anyField isAttachment tables)
             (zodPreamble tables) (concat blocks)
        /\ emittedOnce CollaboratorZodTmpl (anyField isCollaborator tables)
             (zodPreamble tables) (concat blocks))
  /\ (forall flags base out,
         flag_controllers flags = false ->
         generateTSDefinitions flags base tables = Ok out ->
         exists blocks,
           mapM (tsTableBlock false (flag_id flags) tables) tables
           = Ok blocks
           /\ out = join newline (tsPreamble false tables +++ concat blocks)
           /\ emittedOnce getAdditionalTsForAttachments
                (anyField isAttachment tables)
                (tsPreamble false tables) (concat blocks)
           /\ emittedOnce getAdditionalTsForCollaborators
                (anyField isCollaborator tables)
                (tsPreamble false tables) (concat blocks))
  /\ (forall flags base out,
         flag_controllers flags = true ->
         generateTSDefinitions flags base tables = Ok out ->
         exists lines,
           out = join newline lines
           /\ generateTSLines flags base tables = Ok lines
           /\ occurrences getAdditionalTsForAttachments lines = 0
           /\ occurrences getAdditionalTsForCollaborators lines = 0).
Proof.
  intros Hatt Hcol. split; [|split].
  - intros base out H. apply generateZodSchemas_ok in H.
    destruct H as [blocks [Hb ->]]. exists blocks.
    pose proof (blocks_not_shape zodTableBlock zodShape tables blocks
                  zodTableBlock_not_zodShape Hb) as Hrest.
    split; [exact Hb | split; [reflexivity | split]].
    + apply (emittedOnce_intro _ isAttachment tables hasAttachmentField);
        [exact Hatt | apply zodPreamble_attachment |].
      intros s Hs Heq. apply (Hrest s Hs). now left.
    + apply (emittedOnce_intro _ isCollaborator tables hasCollaboratorField);
        [exact Hcol | apply zodPreamble_collaborator |].
      intros s Hs Heq. apply (Hrest s Hs). now right.
  - intros flags base out Hflag H. apply generateTSDefinitions_ok in H.
    rewrite Hflag in H. destruct H as [blocks [Hb ->]]. exists blocks.
    rewrite app_nil_r.
    pose proof (blocks_not_shape _ tsShape tables blocks
                  (tsTableBlock_not_tsShape false (flag_id flags) tables) Hb)
      as Hrest.
    split; [exact Hb | split; [reflexivity | split]].
    + apply (emittedOnce_intro _ isAttachment tables hasAttachmentField);
        [exact Hatt | apply tsPreamble_attachment |].
      intros s Hs Heq. apply (Hrest s Hs). now left.
    + apply (emittedOnce_intro _ isCollaborator tables hasCollaboratorField);
        [exact Hcol | apply tsPreamble_collaborator |].
      intros s Hs Heq. apply (Hrest s Hs). now right.
  - intros flags base out Hflag H.
    unfold generateTSDefinitions in H. apply bind_ok in H.
    destruct H as [lines [Hl H]]. injection H as <-.
    exists lines. split; [reflexivity|]. split; [exact Hl|].
    apply generateTSLines_ok in Hl.
    rewrite Hflag in Hl. destruct Hl as [blocks [Hb ->]].
    pose proof (blocks_not_shape _ tsShape tables blocks
                  (tsTableBlock_not_tsShape true (flag_id flags) tables) Hb)
      as Hrest.
    assert (Hall : forall s,
               In s (tsPreamble true tables +++ concat blocks
                     +++ tsControllers base tables) -> ~ tsShape s).
    { intros s Hin. apply in_app_iff in Hin. destruct Hin as [Hin|Hin].
      - now apply (tsPreamble_controllers tables).
      - apply in_app_iff in Hin. destruct Hin as [Hin|Hin].
        + now apply Hrest.
        + now apply (tsControllers_not_tsShape base tables). }
    split; apply occurrences_none; intros s Hs Heq; apply (Hall s Hs).
    + now left.
    + now right.
Qed.

(** ** The enum-name resolver *)



















(** * Further properties of the assemblers *)

Lemma mapM_ok_iff {A B : Type} (f : A -> result B) (l : list A) :
  (exists bs, mapM f l = Ok bs) <-> (forall a, In a l -> exists b, f a = Ok b).
Proof.
  induction l as [|a l IH]; simpl.
  - split; [intros _ a [] | intros _; now exists []].
  - split.
    + intros [bs H]. apply bind_ok in H. destruct H as [b [Hb H]].
      apply bind_ok in H. destruct H as [bs' [Hbs _]].
      intros a' [<-|Hin]; [now exists b|].
      apply (proj1 IH); [now exists bs' | exact Hin].
    + intros H. destruct (H a (or_introl eq_refl)) as [b Hb].
      destruct (proj2 IH (fun a' Ha' => H a' (or_intror Ha'))) as [bs Hbs].
      exists (b :: bs). rewrite Hb, Hbs. reflexivity.
Qed.

Lemma mapM_throw {A B : Type} (f : A -> result B) (l : list A) (e : exn) :
  mapM f l = Throw e -> exists a, In a l /\ f a = Throw e.
Proof.
  induction l as [|a l IH]; simpl; [discriminate|].
  destruct (f a) as [b|e'] eqn:Ha; simpl.
  - destruct (mapM f l) as [bs|e'']; simpl; [discriminate|].
    intros [= ->]. destruct (IH eq_refl) as [a' [Hin Ha']].
    exists a'. split; [now right | exact Ha'].
  - intros [= ->]. exists a. split; [now left | exact Ha].
Qed.

(** The first element on which the loop body throws decides the exception. *)
Lemma mapM_first_throw {A B : Type} (f : A -> result B) (pre post : list A)
  (a : A) (e : exn) :
  (forall a', In a' pre -> exists b, f a' = Ok b) ->
  f a = Throw e ->
  mapM f (pre +++ a :: post) = Throw e.
Proof.
  induction pre as [|p pre IH]; simpl; intros Hpre Ha.
  - rewrite Ha. reflexivity.
  - destruct (Hpre p (or_introl eq_refl)) as [b ->]. simpl.
    rewrite IH; [reflexivity | | exact Ha].
    intros a' Ha'. apply Hpre. now right.
Qed.

(** ** Base and table selection *)

(** X1. [getBaseMetadata] returns the first base of the list whose id is the
    requested one, and aborts with [Could not find base with ID <id>] exactly
    when no base of the list has that id. *)
Theorem base_selection (bases : list BaseMetadata) (baseId : string) :
  (forall baseMeta,
      getBaseMetadata bases baseId = Ok baseMeta
      <-> exists pre post,
            bases = pre +++ baseMeta :: post
            /\ base_id baseMeta = baseId
            /\ forall b, In b pre -> base_id b <> baseId)
  /\ (getBaseMetadata bases baseId
      = Throw (CLIError ("Could not find base with ID " ++ baseId))
      <-> forall b, In b bases -> base_id b <> baseId).
Proof.
  unfold getBaseMetadata. induction bases as [|b0 bases [IHok IHno]]; simpl.
  - split.
    + intros baseMeta. split; [discriminate|].
      intros [pre [post [H _]]]. destruct pre; discriminate H.
    + split; [intros _ b [] | reflexivity].
  - destruct (String.eqb_spec (base_id b0) baseId) as [Heq|Hne].
    + split.
      * intros baseMeta. split.
        -- intros [= <-]. exists [], bases.
           split; [reflexivity | split; [exact Heq | intros b []]].
        -- intros [pre [post [Hl [Hid Hpre]]]].
           destruct pre as [|p pre]; simpl in Hl.
           ++ now injection Hl as <- _.
           ++ injection Hl as <- _. exfalso.
              apply (Hpre b0 (or_introl eq_refl)). exact Heq.
      * split; [discriminate|].
        intros H. exfalso. apply (H b0 (or_introl eq_refl)). exact Heq.
    + split.
      * intros baseMeta. rewrite IHok. split.
        -- intros [pre [post [-> [Hid Hpre]]]].
           exists (b0 :: pre), post.
           split; [reflexivity | split; [exact Hid|]].
           intros b [<-|Hb]; auto.
        -- intros [pre [post [Hl [Hid Hpre]]]].
           destruct pre as [|p pre]; simpl in Hl.
           ++ injection Hl as <- _. contradiction.
           ++ injection Hl as <- ->. exists pre, post.
              split; [reflexivity | split; [exact Hid|]].
              intros b Hb. apply Hpre. now right.
      * rewrite IHno. split.
        -- intros H b [<-|Hb]; auto.
        -- intros H b Hb. apply H. now right.
Qed.

Lemma existsb_same_members {A : Type} (p : A -> bool) (l l' : list A) :
  (forall a, In a l <-> In a l') -> existsb p l = existsb p l'.
Proof.
  intros Hmem.
  destruct (existsb p l) eqn:E, (existsb p l') eqn:E'; try reflexivity.
  - apply existsb_exists in E. destruct E as [a [Ha Hp]].
    assert (H : existsb p l' = true)
      by (apply existsb_exists; exists a; split; [now apply Hmem | exact Hp]).
    congruence.
  - apply existsb_exists in E'. destruct E' as [a [Ha Hp]].
    assert (H : existsb p l = true)
      by (apply existsb_exists; exists a; split; [now apply Hmem | exact Hp]).
    congruence.
Qed.

(** X2. Table selection does not depend on the order of the allow-list: two
    allow-lists with the same entries and the same number of entries select
    the same tables, or both abort. *)
Theorem allowlist_order_irrelevant (fetched : list TableMetadata)
  (allowlist allowlist' : list string) :
  (forall entry, In entry allowlist <-> In entry allowlist') ->
  List.length allowlist = List.length allowlist' ->
  (forall tables,
      getTableMetadata fetched (Some allowlist) = Ok tables
      <-> getTableMetadata fetched (Some allowlist') = Ok tables)
  /\ ((exists message,
          getTableMetadata fetched (Some allowlist)
          = Throw (CLIError message))
      <-> (exists message,
              getTableMetadata fetched (Some allowlist')
              = Throw (CLIError message))).
Proof.
  intros Hmem Hlen.
  pose proof (getTableMetadata_unfold fetched allowlist) as H1.
  pose proof (getTableMetadata_unfold fetched allowlist') as H2.
  cbv zeta in H1, H2. rewrite H1, H2.
  assert (Hsel :
            filter (fun table =>
                      existsb (fun entry => resolvesTo entry table) allowlist)
                   fetched
            = filter (fun table =>
                        existsb (fun entry => resolvesTo entry table)
                                allowlist')
                     fetched).
  { apply filter_ext. intros table. now apply existsb_same_members. }
  rewrite Hsel, Hlen. clear H1 H2.
  destruct (Nat.eqb _ _).
  - split; [intros tables; reflexivity|].
    split; intros [m H]; discriminate H.
  - split; [intros tables; split; discriminate|].
    split; intros _; eexists; reflexivity.
Qed.

(** ** When generation succeeds *)

Lemma isSelect_switch (field : FieldMetadata) :
  isSelect field = true
  <-> switchOnType (field_type field) = Some singleSelect
      \/ switchOnType (field_type field) = Some multipleSelects.
Proof.
  unfold isSelect. split.
  - intros H. apply orb_true_iff in H.
    destruct H as [H|H]; apply String.eqb_eq in H; rewrite H; auto.
  - intros [H|H].
    + rewrite (switchOnType_singleSelect _ H). reflexivity.
    + rewrite (switchOnType_multipleSelects _ H). reflexivity.
Qed.

Lemma getZodType_ok_iff (table : TableMetadata) (field : FieldMetadata) :
  (exists s, getZodType table field = Ok s)
  <-> inEnumeration (field_type field).
Proof.
  split; [|apply getZodType_inside].
  intros [s H]. destruct (switchOnType (field_type field)) as [ty|] eqn:E.
  - exact (lookupTag_some_in _ _ _ E).
  - unfold getZodType in H. rewrite E in H. discriminate H.
Qed.

Lemma computedDerivedTags_switch (field : FieldMetadata) :
  In (field_type field) computedDerivedTags ->
  forall opts,
    getTsType field opts = getTsForFieldType (derivedType field).
Proof.
  unfold computedDerivedTags, getTsType. simpl.
  intros [H|[H|[H|[H|[H|[]]]]]] opts; rewrite <- H; reflexivity.
Qed.

Lemma getTsType_ok_iff (field : FieldMetadata) (opts : TsOptions) :
  (exists s, getTsType field opts = Ok s) <-> tsTypeAccepts field.
Proof.
  unfold tsTypeAccepts, zodAccepts. split.
  - intros [s H]. split; [split|].
    + destruct (switchOnType (field_type field)) as [ty|] eqn:E.
      * exact (lookupTag_some_in _ _ _ E).
      * unfold getTsType in H. rewrite E in H. discriminate H.
    + intros Hsel. apply isSelect_switch in Hsel.
      unfold getTsType in H.
      destruct Hsel as [E|E]; rewrite E in H; apply bind_ok in H;
        destruct H as [cs [Hcs _]]; now exists cs.
    + intros Hcomputed.
      rewrite (computedDerivedTags_switch field Hcomputed) in H.
      destruct (getTsForFieldType_cases (derivedType field))
        as [[tag [E _]]|[_ Hthrow]].
      * exact (lookupTag_some_in _ _ _ E).
      * rewrite Hthrow in H. discriminate H.
  - intros [[Hin Hsel] Hder]. destruct (switchOnType_inside _ Hin) as [ty E].
    pose proof (getTsForFieldType_inside _ _ E) as Hown.
    assert (Hcomputed :
              In ty [createdTime; formula; lastModifiedTime;
                     multipleLookupValues; rollup] ->
              exists s, getTsForFieldType (derivedType field) = Ok s).
    { intros Hty. pose proof (switchOnType_computed _ _ E Hty) as Htag.
      destruct (switchOnType_inside _ (Hder Htag)) as [tag Etag].
      rewrite (getTsForFieldType_inside _ _ Etag). eexists; reflexivity. }
    unfold getTsType. rewrite E.
    destruct ty; rewrite ?Hown;
      try (eexists; reflexivity);
      try (destruct (useAirtableLibraryTypes opts); eexists; reflexivity);
      try (apply Hcomputed; simpl; auto 10).
    + destruct Hsel as [cs Hcs]; [apply isSelect_switch; auto|].
      rewrite Hcs. eexists; reflexivity.
    + destruct Hsel as [cs Hcs]; [apply isSelect_switch; auto|].
      rewrite Hcs. eexists; reflexivity.
Qed.

Lemma zodEnumDecl_ok_iff (table : TableMetadata) (field : FieldMetadata) :
  (exists decl, zodEnumDecl table field = Ok decl)
  <-> (isSelect field = true -> exists cs, fieldChoices field = Ok cs).
Proof.
  unfold zodEnumDecl. destruct (isSelect field).
  - split.
    + intros [decl H] _. apply bind_ok in H. destruct H as [cs [Hcs _]].
      now exists cs.
    + intros H. destruct (H eq_refl) as [cs ->]. eexists; reflexivity.
  - split; [intros _ H; discriminate H | intros _; eexists; reflexivity].
Qed.

Lemma zodFieldLine_ok_iff (table : TableMetadata) (field : FieldMetadata) :
  (exists entry, zodFieldLine table field = Ok entry)
  <-> inEnumeration (field_type field).
Proof.
  rewrite <- (getZodType_ok_iff table field). unfold zodFieldLine. split.
  - intros [entry H]. apply bind_ok in H. destruct H as [ty [Hty _]].
    now exists ty.
  - intros [ty ->]. eexists; reflexivity.
Qed.

Lemma zodTableBlock_ok_iff (table : TableMetadata) :
  (exists block, zodTableBlock table = Ok block)
  <-> (forall field, In field (table_fields table) -> zodAccepts field).
Proof.
  unfold zodAccepts. split.
  - intros [block H]. apply zodTableBlock_ok in H.
    destruct H as [enums [entries [He [Hn _]]]]. intros field Hin. split.
    + apply (zodFieldLine_ok_iff table).
      apply (proj1 (mapM_ok_iff _ _) (ex_intro _ entries Hn) field Hin).
    + apply (zodEnumDecl_ok_iff table).
      apply (proj1 (mapM_ok_iff _ _) (ex_intro _ enums He) field Hin).
  - intros H. unfold zodTableBlock.
    destruct (proj2 (mapM_ok_iff (zodEnumDecl table) (table_fields table)))
      as [enums ->].
    { intros field Hin. apply zodEnumDecl_ok_iff. now apply H. }
    destruct (proj2 (mapM_ok_iff (zodFieldLine table) (table_fields table)))
      as [entries ->].
    { intros field Hin. apply zodFieldLine_ok_iff. now apply H. }
    eexists; reflexivity.
Qed.

Lemma zodTableBlock_throw (table : TableMetadata) (e : exn) :
  zodTableBlock table = Throw e ->
  exists field,
    In field (table_fields table)
    /\ ((isSelect field = true /\ fieldChoices field = Throw TypeError
         /\ e = TypeError)
        \/ (~ inEnumeration (field_type field) /\ e = unrecognized field)).
Proof.
  unfold zodTableBlock.
  destruct (mapM (zodEnumDecl table) (table_fields table)) as [enums|e1]
    eqn:He; simpl.
  - destruct (mapM (zodFieldLine table) (table_fields table))
      as [entries|e2] eqn:Hn; simpl; [discriminate|].
    intros [= ->]. apply mapM_throw in Hn. destruct Hn as [field [Hin Hf]].
    exists field. split; [exact Hin|]. right.
    unfold zodFieldLine, getZodType in Hf.
    destruct (switchOnType (field_type field)) as [ty|] eqn:E.
    + exfalso.
      destruct (getZodType_inside table field (lookupTag_some_in _ _ _ E))
        as [s Hs].
      unfold getZodType in Hs. rewrite E in Hs. rewrite Hs in Hf.
      discriminate Hf.
    + simpl in Hf. injection Hf as <-.
      split; [now apply lookupTag_none_iff | reflexivity].
  - intros [= ->]. apply mapM_throw in He. destruct He as [field [Hin Hf]].
    exists field. split; [exact Hin|]. left.
    unfold zodEnumDecl in Hf. destruct (isSelect field); [|discriminate Hf].
    unfold fieldChoices in *.
    destruct (field_options field) as [o|];
      [destruct (choices o)|]; simpl in Hf;
      try discriminate Hf; injection Hf as <-; auto.
Qed.

(** X3. The schema-validator assembler returns a module exactly when every
    field of every selected table has a tag of the enumeration and every
    choice field carries its choices.  When it fails, it has produced no
    text, and the exception is the [TypeError] of a choice field without
    choices or the unrecognized-type error of a field of a selected table
    whose tag is outside the enumeration. *)
Theorem zod_generation_outcome (base : BaseMetadata)
  (tables : list TableMetadata) :
  ((exists out, generateZodSchemas base tables = Ok out)
   <-> (forall table field,
           In table tables -> In field (table_fields table) ->
           zodAccepts field))
  /\ (forall e,
         generateZodSchemas base tables = Throw e ->
         exists table field,
           In table tables /\ In field (table_fields table)
           /\ ((isSelect field = true
                /\ fieldChoices field = Throw TypeError /\ e = TypeError)
               \/ (~ inEnumeration (field_type field)
                   /\ e = Error ("Unrecognized field type: "
                                 ++ field_type field ++ " (on field '"
                                 ++ field_name field ++ "')")))).
Proof.
  unfold generateZodSchemas, generateZodLines. split.
  - split.
    + intros [out H]. apply bind_ok in H. destruct H as [lines [H _]].
      apply bind_ok in H. destruct H as [blocks [Hb _]].
      intros table field Ht.
      apply (proj1 (zodTableBlock_ok_iff table)).
      apply (proj1 (mapM_ok_iff _ _) (ex_intro _ blocks Hb) table Ht).
    + intros H.
      destruct (proj2 (mapM_ok_iff zodTableBlock tables)) as [blocks ->].
      { intros table Ht. apply zodTableBlock_ok_iff. intros field.
        now apply H. }
      eexists; reflexivity.
  - intros e H.
    destruct (mapM zodTableBlock tables) as [blocks|e'] eqn:Hb; simpl in H;
      [discriminate H|].
    injection H as ->. apply mapM_throw in Hb.
    destruct Hb as [table [Ht Hthrow]].
    apply zodTableBlock_throw in Hthrow.
    destruct Hthrow as [field [Hf Hcase]]. now exists table, field.
Qed.

Lemma linkedTables_throw (tables : list TableMetadata)
  (field : FieldMetadata) (e : exn) :
  linkedTables tables field = Throw e ->
  e = TypeError /\ field_options field = None.
Proof.
  unfold linkedTables. destruct tables; [discriminate|].
  destruct (field_options field); [discriminate|]. intros [= <-]. auto.
Qed.

Lemma tsFieldType_ok_iff (genIds : bool) (tables : list TableMetadata)
  (field : FieldMetadata) (opts : TsOptions) :
  tables <> [] ->
  (exists s, tsFieldType genIds tables field opts = Ok s)
  <-> tsAccepts genIds field.
Proof.
  intros Hne. unfold tsAccepts, tsFieldType. split.
  - intros [s H]. apply bind_ok in H. destruct H as [ty [Hty H]]. split.
    + apply (getTsType_ok_iff field opts). now exists ty.
    + intros -> Htag Hnone. rewrite Htag in H. simpl in H.
      unfold linkedTables in H. rewrite Hnone in H.
      destruct tables; [contradiction | discriminate H].
  - intros [Hacc Hlink].
    destruct (proj2 (getTsType_ok_iff field opts) Hacc) as [ty ->]. simpl.
    destruct (genIds && (field_type field =? "multipleRecordLinks")%string)
      eqn:Hc; [|eexists; reflexivity].
    apply andb_true_iff in Hc. destruct Hc as [-> Htag].
    apply String.eqb_eq in Htag. specialize (Hlink eq_refl Htag).
    destruct (field_options field) as [o|] eqn:Ho; [|contradiction].
    rewrite (linkedTables_ok tables field o Ho). eexists; reflexivity.
Qed.

Lemma tsFieldType_throw (genIds : bool) (tables : list TableMetadata)
  (field : FieldMetadata) (opts : TsOptions) (e : exn) :
  tsFieldType genIds tables field opts = Throw e ->
  (inEnumeration (field_type field) /\ e = TypeError)
  \/ (~ inEnumeration (field_type field) /\ e = unrecognized field).
Proof.
  unfold tsFieldType. intros H.
  destruct (switchOnType (field_type field)) as [ty|] eqn:E.
  - left. pose proof (lookupTag_some_in _ _ _ E) as Hin.
    split; [exact Hin|].
    destruct (getTsType_inside field opts Hin) as [[s Hs]|Hs];
      rewrite Hs in H; simpl in H.
    + destruct (genIds && _); [|discriminate H].
      destruct (linkedTables tables field) as [l|e'] eqn:Hl;
        [discriminate H|].
      simpl in H. injection H as <-.
      now destruct (linkedTables_throw _ _ _ Hl).
    + now injection H.
  - right. split; [now apply lookupTag_none_iff|].
    unfold getTsType in H. rewrite E in H. simpl in H. now injection H.
Qed.

Lemma tsFieldLine_ok_iff (genIds : bool) (tables : list TableMetadata)
  (opts : TsOptions) (field : FieldMetadata) :
  tables <> [] ->
  (exists entry, tsFieldLine genIds tables opts field = Ok entry)
  <-> tsAccepts genIds field.
Proof.
  intros Hne. rewrite <- (tsFieldType_ok_iff genIds tables field opts Hne).
  unfold tsFieldLine. split.
  - intros [entry H]. apply bind_ok in H. destruct H as [ty [Hty _]].
    now exists ty.
  - intros [ty ->]. eexists; reflexivity.
Qed.

Lemma tsTableBlock_ok_iff (controllers genIds : bool)
  (tables : list TableMetadata) (table : TableMetadata) :
  tables <> [] ->
  (exists block, tsTableBlock controllers genIds tables table = Ok block)
  <-> (forall field, In field (table_fields table) -> tsAccepts genIds field).
Proof.
  intros Hne. split.
  - intros [block H]. apply tsTableBlock_ok in H.
    destruct H as [entries [Hn _]]. intros field Hin.
    apply (tsFieldLine_ok_iff genIds tables
             {| useAirtableLibraryTypes := controllers |} field Hne).
    apply (proj1 (mapM_ok_iff _ _) (ex_intro _ entries Hn) field Hin).
  - intros H. unfold tsTableBlock.
    destruct (proj2 (mapM_ok_iff
                       (tsFieldLine genIds tables
                          {| useAirtableLibraryTypes := controllers |})
                       (table_fields table))) as [entries ->].
    { intros field Hin. apply tsFieldLine_ok_iff; [exact Hne | now apply H]. }
    eexists; reflexivity.
Qed.

Lemma in_nonempty {A : Type} (a : A) (l : list A) : In a l -> l <> [].
Proof. intros H ->. contradiction. Qed.

(** X4. The static-typing assembler returns a module exactly when every
    field of every selected table has a tag of the enumeration, every choice
    field carries its choices, the derived result type of every
    computed-derived field is a key of the cell-format table and, when strong
    identifiers are requested, every reference field carries its options.
    When it fails, the exception comes from a field of a selected table: the
    unrecognized-type error when the field's tag is outside the enumeration,
    a [TypeError] otherwise. *)
Theorem ts_generation_outcome (flags : Flags) (base : BaseMetadata)
  (tables : list TableMetadata) :
  ((exists out, generateTSDefinitions flags base tables = Ok out)
   <-> (forall table field,
           In table tables -> In field (table_fields table) ->
           tsAccepts (flag_id flags) field))
  /\ (forall e,
         generateTSDefinitions flags base tables = Throw e ->
         exists table field,
           In table tables /\ In field (table_fields table)
           /\ ~ tsAccepts (flag_id flags) field
           /\ ((inEnumeration (field_type field) /\ e = TypeError)
               \/ (~ inEnumeration (field_type field)
                   /\ e = Error ("Unrecognized field type: "
                                 ++ field_type field ++ " (on field '"
                                 ++ field_name field ++ "')")))).
Proof.
  unfold generateTSDefinitions, generateTSLines. split.
  - split.
    + intros [out H]. apply bind_ok in H. destruct H as [lines [H _]].
      apply bind_ok in H. destruct H as [blocks [Hb _]].
      intros table field Ht.
      apply (proj1 (tsTableBlock_ok_iff (flag_controllers flags)
                      (flag_id flags) tables table (in_nonempty _ _ Ht))).
      apply (proj1 (mapM_ok_iff _ _) (ex_intro _ blocks Hb) table Ht).
    + intros H.
      destruct (proj2 (mapM_ok_iff
                         (tsTableBlock (flag_controllers flags)
                            (flag_id flags) tables) tables))
        as [blocks ->].
      { intros table Ht. apply tsTableBlock_ok_iff.
        - exact (in_nonempty _ _ Ht).
        - intros field. now apply H. }
      eexists; reflexivity.
  - intros e H.
    destruct (mapM (tsTableBlock (flag_controllers flags) (flag_id flags)
                      tables) tables) as [blocks|e'] eqn:Hb; simpl in H;
      [discriminate H|].
    injection H as ->. apply mapM_throw in Hb.
    destruct Hb as [table [Ht Hthrow]].
    unfold tsTableBlock in Hthrow.
    destruct (mapM _ (table_fields table)) as [entries|e'] eqn:Hn;
      simpl in Hthrow; [discriminate Hthrow|].
    injection Hthrow as ->. apply mapM_throw in Hn.
    destruct Hn as [field [Hf Hline]].
    exists table, field. split; [exact Ht|]. split; [exact Hf|]. split.
    + intros Hacc.
      apply (tsFieldLine_ok_iff (flag_id flags) tables
               {| useAirtableLibraryTypes := flag_controllers flags |} field
               (in_nonempty _ _ Ht)) in Hacc.
      destruct Hacc as [entry Hentry]. rewrite Hentry in Hline.
      discriminate Hline.
    + unfold tsFieldLine in Hline.
      destruct (tsFieldType (flag_id flags) tables field _) as [ty|e']
        eqn:Hty; simpl in Hline; [discriminate Hline|].
      injection Hline as ->. exact (tsFieldType_throw _ _ _ _ _ Hty).
Qed.

(** X5. The unrecognized-type error names the first offending field: when the
    tables before [table] and the fields before [field] in [table] are
    accepted (and, in the schema-validator dialect, whose enum loop runs
    first, every choice field of [table] carries its choices), and the tag of
    [field] is outside the enumeration, both assemblers throw the error with
    the tag and the name of [field], whatever follows it. *)
Theorem first_unrecognized_field_reported (flags : Flags)
  (base : BaseMetadata) (before after : list TableMetadata)
  (table : TableMetadata) (fieldsBefore fieldsAfter : list FieldMetadata)
  (field : FieldMetadata) :
  table_fields table = fieldsBefore +++ field :: fieldsAfter ->
  ~ inEnumeration (field_type field) ->
  ((forall t f, In t before -> In f (table_fields t) -> zodAccepts f) ->
   (forall f,
       In f (table_fields table) -> isSelect f = true ->
       exists cs, fieldChoices f = Ok cs) ->
   (forall f, In f fieldsBefore -> inEnumeration (field_type f)) ->
   generateZodSchemas base (before +++ table :: after)
   = Throw (Error ("Unrecognized field type: " ++ field_type field
                   ++ " (on field '" ++ field_name field ++ "')")))
  /\ ((forall t f,
          In t before -> In f (table_fields t) ->
          tsAccepts (flag_id flags) f) ->
      (forall f, In f fieldsBefore -> tsAccepts (flag_id flags) f) ->
      generateTSDefinitions flags base (before +++ table :: after)
      = Throw (Error ("Unrecognized field type: " ++ field_type field
                      ++ " (on field '" ++ field_name field ++ "')"))).
Proof.
  intros Hfields Hout. pose proof (switchOnType_outside _ Hout) as Hsw. split.
  - intros Hbefore Hchoices Hprev.
    unfold generateZodSchemas, generateZodLines.
    rewrite (mapM_first_throw zodTableBlock before after table
               (unrecognized field)); [reflexivity | |].
    + intros t Ht. apply zodTableBlock_ok_iff. intros f. now apply Hbefore.
    + unfold zodTableBlock.
      destruct (proj2 (mapM_ok_iff (zodEnumDecl table) (table_fields table)))
        as [enums ->].
      { intros f Hf. apply zodEnumDecl_ok_iff. now apply Hchoices. }
      simpl. rewrite Hfields.
      rewrite (mapM_first_throw (zodFieldLine table) fieldsBefore
                 fieldsAfter field (unrecognized field)); [reflexivity | |].
      * intros f Hf. apply zodFieldLine_ok_iff. now apply Hprev.
      * unfold zodFieldLine, getZodType. rewrite Hsw. reflexivity.
  - intros Hbefore Hprev.
    assert (Hne : before +++ table :: after <> [])
      by (destruct before; discriminate).
    unfold generateTSDefinitions, generateTSLines.
    rewrite (mapM_first_throw _ before after table (unrecognized field));
      [reflexivity | |].
    + intros t Ht. apply (tsTableBlock_ok_iff _ _ _ _ Hne).
      intros f. now apply Hbefore.
    + unfold tsTableBlock. rewrite Hfields.
      rewrite (mapM_first_throw _ fieldsBefore fieldsAfter field
                 (unrecognized field)); [reflexivity | |].
      * intros f Hf. apply (tsFieldLine_ok_iff _ _ _ _ Hne).
        now apply Hprev.
      * unfold tsFieldLine, tsFieldType, getTsType. rewrite Hsw.
        reflexivity.
Qed.

(** ** Names declared before they are used *)

Lemma mapM_split {A B : Type} (f : A -> result B) (l1 l2 : list A) (a : A)
  (bs : list B) :
  mapM f (l1 +++ a :: l2) = Ok bs ->
  exists b1 b b2,
    bs = b1 +++ b :: b2 /\ mapM f l1 = Ok b1 /\ f a = Ok b
    /\ mapM f l2 = Ok b2.
Proof.
  revert bs. induction l1 as [|x l1 IH]; simpl; intros bs H.
  - apply bind_ok in H. destruct H as [b [Hb H]].
    apply bind_ok in H. destruct H as [b2 [Hb2 H]]. injection H as <-.
    now exists [], b, b2.
  - apply bind_ok in H. destruct H as [y [Hy H]].
    apply bind_ok in H. destruct H as [bs' [Hbs H]]. injection H as <-.
    destruct (IH bs' Hbs) as [b1 [b [b2 [-> [H1 [Hb H2]]]]]].
    exists (y :: b1), b, b2. rewrite Hy, H1. simpl. auto.
Qed.

Lemma mapM_in_l {A B : Type} (f : A -> result B) (l : list A) (bs : list B)
  (a : A) :
  mapM f l = Ok bs -> In a l -> exists b, In b bs /\ f a = Ok b.
Proof.
  intros H Hin. apply in_split in Hin. destruct Hin as [l1 [l2 ->]].
  apply mapM_split in H. destruct H as [b1 [b [b2 [-> [_ [Hb _]]]]]].
  exists b. split; [apply in_elt | exact Hb].
Qed.



Lemma tsFieldType_link (tables : list TableMetadata) (field : FieldMetadata)
  (opts : TsOptions) (ty : string) :
  field_type field = "multipleRecordLinks" ->
  tsFieldType true tables field opts = Ok ty ->
  ty = "Array<AirtableUid>"
  \/ exists target,
       In target tables
       /\ ty = "Array<" ++ pascalCase (table_name target) ++ "Id>".
Proof.
  intros Htag H. unfold tsFieldType in H. apply bind_ok in H.
  destruct H as [ty0 [_ H]]. rewrite Htag in H. simpl in H.
  apply bind_ok in H. destruct H as [linked [Hl H]]. injection H as <-.
  assert (Hsub : forall t, In t linked -> In t tables).
  { destruct (field_options field) as [o|] eqn:Ho.
    - rewrite (linkedTables_ok tables field o Ho) in Hl. injection Hl as <-.
      intros t Ht. apply filter_In in Ht. exact (proj1 Ht).
    - unfold linkedTables in Hl. rewrite Ho in Hl.
      destruct tables; [|discriminate Hl].
      injection Hl as <-. intros t []. }
  destruct (pop (map (fun t => pascalCase (table_name t) ++ "Id") linked))
    as [s|] eqn:Hpop; [|now left].
  apply pop_in in Hpop. apply in_map_iff in Hpop.
  destruct Hpop as [target [<- Ht]]. rewrite identifier_name_nonempty.
  right. exists target. split; [now apply Hsub|].
  simpl. now rewrite append_assoc.
Qed.

(** X7. In the static-typing dialect with strong identifiers, every
    identifier type a reference field's entry names is declared in the same
    module: the entry's type is [Array<AirtableUid>], which the preamble
    declares, or [Array<TId>] for a table [T] of the generation set, whose
    block declares [TId]. *)
Theorem identifier_types_declared (flags : Flags) (base : BaseMetadata)
  (tables : list TableMetadata) (out : string) :
  flag_id flags = true ->
  generateTSDefinitions flags base tables = Ok out ->
  exists lines,
    out = join newline lines
    /\ forall table field,
         In table tables -> In field (table_fields table) ->
         field_type field = "multipleRecordLinks" ->
         referenceDeclared tables field lines.
Proof.
  intros Hid H. apply generateTSDefinitions_ok in H.
  destruct H as [blocks [Hb ->]]. rewrite Hid in Hb. eexists.
  split; [reflexivity|].
  assert (Hblock : forall t, In t tables ->
            exists block,
              In block blocks
              /\ tsTableBlock (flag_controllers flags) true tables t
                 = Ok block).
  { intros t Ht. exact (mapM_in_l _ _ _ t Hb Ht). }
  assert (Hlines : forall (block : list string) (s : string),
            In block blocks -> In s block ->
            In s (tsPreamble (flag_controllers flags) tables
                  +++ concat blocks
                  +++ (if flag_controllers flags
                       then tsControllers base tables else []))).
  { intros block s Hblk Hs. apply in_or_app. right. apply in_or_app. left.
    apply in_concat. now exists block. }
  intros table field Ht Hf Htag.
  destruct (Hblock table Ht) as [block [Hblk Hrun]].
  apply tsTableBlock_ok in Hrun. destruct Hrun as [entries [Hn Heq]].
  destruct (mapM_in_l _ _ _ field Hn Hf) as [entry [Hentry Hline]].
  unfold tsFieldLine in Hline. apply bind_ok in Hline.
  destruct Hline as [ty [Hty Hline]]. injection Hline as Hline.
  exists (if isReadonlyField field then "" else "?"), ty. split.
  - apply (Hlines block); [exact Hblk|]. rewrite Heq.
    apply in_or_app. right. apply in_or_app. left.
    rewrite <- Hline in Hentry. exact Hentry.
  - destruct (tsFieldType_link tables field _ ty Htag Hty)
      as [->|[target [Htarget ->]]].
    + left. split; [reflexivity|]. apply in_or_app. left.
      unfold tsPreamble. apply in_or_app. right. now left.
    + right. exists target. split; [exact Htarget|].
      split; [reflexivity|].
      destruct (Hblock target Htarget) as [block' [Hblk' Hrun']].
      apply tsTableBlock_ok in Hrun'. destruct Hrun' as [entries' [_ Heq']].
      apply (Hlines block'); [exact Hblk'|]. rewrite Heq'.
      apply in_or_app. left. right. now left.
Qed.

Lemma pop_snoc {A : Type} (l : list A) (x : A) : pop (l +++ [x]) = Some x.
Proof.
  induction l as [|a l IH]; [reflexivity|]. simpl.
  destruct (l +++ [x]) eqn:E; [destruct l; discriminate E | exact IH].
Qed.

(** X8. When several tables of the generation set share the linked id, the
    reference field is typed by the last of them: the tables after [target]
    do not have the id, so whatever stands before it, the type names
    [target]. *)
Theorem last_table_with_linked_id_wins (before after : list TableMetadata)
  (target : TableMetadata) (field : FieldMetadata) (o : FieldOptions)
  (opts : TsOptions) :
  field_type field = "multipleRecordLinks" ->
  field_options field = Some o ->
  linkedTableId o = Some (table_id target) ->
  (forall t, In t after -> table_id t <> table_id target) ->
  tsFieldType true (before +++ target :: after) field opts
  = Ok ("Array<" ++ pascalCase (table_name target) ++ "Id>").
Proof.
  intros Htag Ho Hlink Hafter.
  unfold tsFieldType.
  assert (Hts : getTsType field opts
                = Ok (printCellFormat multipleRecordLinks)).
  { unfold getTsType. rewrite Htag. reflexivity. }
  rewrite Hts, Htag. simpl.
  rewrite (linkedTables_ok _ field o Ho). simpl. rewrite Hlink.
  rewrite filter_app. simpl. rewrite String.eqb_refl.
  assert (Hnone : filter (fun t => (table_id t =? table_id target)%string)
                         after = []).
  { induction after as [|t ts IH]; [reflexivity|]. simpl.
    destruct (String.eqb_spec (table_id t) (table_id target)) as [Heq|_].
    - exfalso. exact (Hafter t (or_introl eq_refl) Heq).
    - apply IH. intros t' Ht'. apply Hafter. now right. }
  rewrite Hnone, map_app. simpl. rewrite pop_snoc.
  rewrite identifier_name_nonempty. simpl. now rewrite append_assoc.
Qed.

(** ** The import of the Airtable library *)





(** ** The command *)

Ltac run_unfold_in H :=
  cbv beta iota zeta
      delta [run newMain andThen emit lift getThis setThis ret
             tryReadJsonCache Main_getBaseMetadata Main_getTableMetadata
             fetchAirtableApi accessToken this_baseId this_flags
             baseMetadata tableMetadata shouldWriteJson cache_baseMetadata
             cache_tableMetadata app negb andb]
    in H.

(** One step of the run: a case analysis on the next answer of the
    environment, or of a function of the engine, that the run waits for. *)
Ltac run_case H :=
  match type of H with
  | context [flags_jsoncache ?f] => destruct (flags_jsoncache f) eqn:?
  | context [String.eqb ?s ""] => destruct (String.eqb s "") eqn:?
  | context [pathExists env ?p] => destruct (pathExists env p) eqn:?
  | context [readJSON env ?p] =>
      destruct (readJSON env p) as [[[?|] [?|]]|?] eqn:?
  | context [match ?t with Some _ => _ | None => _ end] =>
      is_var t; destruct t
  | context [httpRequest env ?p ?t] => destruct (httpRequest env p t) eqn:?
  | context [parseBaseList env ?j] => destruct (parseBaseList env j) eqn:?
  | context [getBaseMetadata ?b ?i] => destruct (getBaseMetadata b i) eqn:?
  | context [parseTableList env ?j] => destruct (parseTableList env j) eqn:?
  | context [getTableMetadata ?t ?a] => destruct (getTableMetadata t a) eqn:?
  | context [flags_zod ?f] => destruct (flags_zod f) eqn:?
  | context [generateZodSchemas ?b ?t] =>
      destruct (generateZodSchemas b t) eqn:?
  | context [generateTSDefinitions ?f ?b ?t] =>
      destruct (generateTSDefinitions f b t) eqn:?
  | context [ensureFile env ?p] => destruct (ensureFile env p) eqn:?
  | context [writeFile env ?p ?d] => destruct (writeFile env p d) eqn:?
  | context [writeJSON env ?p ?j] => destruct (writeJSON env p j) eqn:?
  end; run_unfold_in H.

Ltac run_cases H :=
  run_unfold_in H; repeat run_case H;
  apply pair_equal_spec in H; destruct H as [<- <-].

(** An event that is not in an explicit trace. *)
Ltac not_in_trace Hin :=
  simpl in Hin; repeat (destruct Hin as [Hin|Hin]; [discriminate Hin|]);
  contradiction.

Lemma cachedDocuments_usable (flags : CommandFlags) (b t : Json) :
  cachedDocuments flags b t -> usableCache flags.
Proof.
  intros (file & json & H). now exists file, json, b, t.
Qed.

Lemma cachedDocuments_functional (flags : CommandFlags) (b t b' t' : Json) :
  cachedDocuments flags b t -> cachedDocuments flags b' t' ->
  b = b' /\ t = t'.
Proof.
  intros (file & json & Hf & _ & _ & Hr & Hb & Ht)
         (file' & json' & Hf' & _ & _ & Hr' & Hb' & Ht').
  rewrite Hf in Hf'. injection Hf' as <-.
  rewrite Hr in Hr'. injection Hr' as <-.
  split; congruence.
Qed.

Lemma cachedDocuments_intro (flags : CommandFlags) (file : string)
  (b t : Json) :
  flags_jsoncache flags = Some file -> file <> "" ->
  pathExists env (resolve env file) = true ->
  readJSON env (resolve env file)
  = Ok {| cache_baseMetadata := Some b; cache_tableMetadata := Some t |} ->
  cachedDocuments flags b t.
Proof.
  intros Hf Hne Hex Hr.
  exists file, {| cache_baseMetadata := Some b; cache_tableMetadata := Some t |}.
  auto 10.
Qed.

(** The ways in which the cache file is not usable. *)
Lemma cache_miss (flags : CommandFlags) :
  flags_jsoncache flags = None
  \/ flags_jsoncache flags = Some ""
  \/ (exists file,
         flags_jsoncache flags = Some file
         /\ (pathExists env (resolve env file) = false
             \/ (exists e, readJSON env (resolve env file) = Throw e)
             \/ (exists json,
                    readJSON env (resolve env file) = Ok json
                    /\ (cache_baseMetadata json = None
                        \/ cache_tableMetadata json = None)))) ->
  ~ usableCache flags.
Proof.
  intros Hmiss (file & json & b & t & Hf & Hne & Hex & Hr & Hb & Ht).
  destruct Hmiss as [H|[H|[file' [H Hcase]]]]; rewrite Hf in H.
  - discriminate H.
  - injection H as ->. now apply Hne.
  - injection H as <-. destruct Hcase as [H|[[e H]|[json' [H Hnone]]]].
    + congruence.
    + congruence.
    + rewrite Hr in H. injection H as <-.
      destruct Hnone; congruence.
Qed.

Ltac prove_cache_miss :=
  apply cache_miss;
  first
    [ left; eassumption
    | right; left; eassumption
    | right; right; eexists; split; [eassumption|];
      first
        [ left; eassumption
        | right; left; eexists; eassumption
        | right; right; eexists; split; [eassumption|]; simpl;
          first [left; reflexivity | right; reflexivity] ] ].

(** Which documents the run at hand worked on: [Hmiss] when the cache file
    was not usable, [Hhit] with its documents when it was. *)
Ltac cache_outcome :=
  match goal with
  | |- context [runDocuments _ _ ?flags] =>
      first
        [ assert (Hmiss : ~ usableCache flags) by prove_cache_miss
        | match goal with
          | Hr : readJSON env _
                 = Ok {| cache_baseMetadata := Some ?b;
                         cache_tableMetadata := Some ?t |} |- _ =>
              assert (Hhit : cachedDocuments flags b t)
                by (eapply cachedDocuments_intro; eassumption)
          end ]
  end.

Ltac empty_strings :=
  repeat match goal with
    | Heq : String.eqb ?s "" = true |- _ =>
        apply String.eqb_eq in Heq; subst s
    | Heq : String.eqb _ "" = false |- _ => apply String.eqb_neq in Heq
    end.

(** X14. [run] writes the output file at most once, and what it writes is a
    complete module: the text one of the two assemblers returned for the
    base with the requested id and the tables selected by the [tables] flag,
    both taken from the parsed documents the run works on (the cached ones
    when the cache file is usable, the fetched ones otherwise), written to
    the path of the [output] flag or, by default, to
    [<param-case base name>.ts].  When the assembler throws on that base and
    those tables, the run stops with the same exception and has written
    neither the output file nor the cache file. *)
Theorem run_writes_complete_module (token : option string)
  (baseId : string) (flags : CommandFlags) (trace : list event)
  (outcome : result (unit * Main)) :
  run (newMain token baseId flags) = (trace, outcome) ->
  List.length (filter isWriteFile trace) <= 1
  /\ (forall path data,
         In (WriteFile path data) trace ->
         exists b t bases fetched baseMeta tableMeta,
           runDocuments token baseId flags b t
           /\ parseBaseList env b = Ok bases
           /\ parseTableList env t = Ok fetched
           /\ getBaseMetadata bases baseId = Ok baseMeta
           /\ getTableMetadata fetched
                (option_map (split ","%char) (flags_tables flags))
              = Ok tableMeta
           /\ (if flags_zod flags
               then generateZodSchemas baseMeta tableMeta
               else generateTSDefinitions (assemblerFlags flags) baseMeta
                      tableMeta) = Ok data
           /\ path = resolve env (outputPath flags baseMeta))
  /\ (forall b t bases fetched baseMeta tableMeta e,
         runDocuments token baseId flags b t ->
         parseBaseList env b = Ok bases ->
         parseTableList env t = Ok fetched ->
         getBaseMetadata bases baseId = Ok baseMeta ->
         getTableMetadata fetched
           (option_map (split ","%char) (flags_tables flags))
         = Ok tableMeta ->
         (if flags_zod flags
          then generateZodSchemas baseMeta tableMeta
          else generateTSDefinitions (assemblerFlags flags) baseMeta
                 tableMeta) = Throw e ->
         outcome = Throw e
         /\ (forall path data, ~ In (WriteFile path data) trace)
         /\ (forall path json, ~ In (WriteJSON path json) trace)).
Proof.
  intros H. run_cases H.
  all: empty_strings.
  all: cache_outcome.
  all: split; [simpl; lia|].
  all: split;
    [ intros path data Hin;
      first
        [ not_in_trace Hin
        | simpl in Hin;
          repeat (destruct Hin as [Hin|Hin]; [try discriminate Hin|]);
          try contradiction; injection Hin as <- <-;
          do 6 eexists;
          split;
          [ first
              [ left; exact Hhit
              | right; split; [exact Hmiss|]; eexists;
                repeat (split; [first [reflexivity | eassumption]|]);
                eassumption ]
          | repeat (split; [first [reflexivity | eassumption]|]);
            reflexivity ] ]
    | intros b t bases fetched baseMeta tableMeta err Hdocs Hpb Hpt Hgb Hgt
        Hgen;
      destruct Hdocs as [Hc|[Hn (tok & Htok & Hne & Hb & Ht)]];
      [ first
          [ exfalso; apply Hmiss; eapply cachedDocuments_usable; exact Hc
          | destruct (cachedDocuments_functional _ _ _ _ _ Hc Hhit)
              as [-> ->] ]
      | first
          [ exfalso; apply Hn; eapply cachedDocuments_usable; exact Hhit
          | unfold tablesPath in Ht ] ];
      cbv beta iota in Hgen;
      first
        [ congruence
        | split;
          [ congruence
          | split; [intros path data Hin | intros path json Hin];
            not_in_trace Hin ] ] ].
Qed.
Ltac before_write tr :=
  lazymatch tr with
  | WriteFile _ _ :: _ => constr:(@nil event)
  | ?e :: ?rest => let p := before_write rest in constr:(e :: p)
  end.

(** X15. [run] writes the cache file only after it has written the module,
    and then to the path of the [jsoncache] flag, with exactly the two
    documents it fetched in this run: the base list and the table list of
    the requested base. *)
Theorem cache_file_written_after_module (token : option string)
  (baseId : string) (flags : CommandFlags) (trace : list event)
  (outcome : result (unit * Main)) (path : string) (json : CacheJson) :
  run (newMain token baseId flags) = (trace, outcome) ->
  In (WriteJSON path json) trace ->
  exists file tok b t,
    flags_jsoncache flags = Some file
    /\ path = resolve env file
    /\ token = Some tok
    /\ httpRequest env AIRTABLE_API_BASE_META_PATH tok = Ok b
    /\ httpRequest env (tablesPath baseId) tok = Ok t
    /\ json = {| cache_baseMetadata := Some b; cache_tableMetadata := Some t |}
    /\ exists before after out data,
         trace = before +++ WriteFile out data :: after
         /\ In (WriteJSON path json) after.
Proof.
  intros H Hin. run_cases H.
  all: try (not_in_trace Hin).
  all: simpl in Hin;
    repeat (destruct Hin as [Hin|Hin]; [try discriminate Hin|]);
    try contradiction; injection Hin as <- <-.
  all: do 4 eexists.
  all: repeat (split; [first [reflexivity | eassumption]|]).
  all: match goal with
       | |- exists before after out data, ?tr = _ /\ _ =>
           let p := before_write tr in
           exists p; do 3 eexists; split; [reflexivity|]
       end.
  all: simpl; auto.
Qed.

(** X16. With a usable cache file [run] works offline: it sends no request,
    does not rewrite the cache file, and its calls and its failure are the
    same whatever the access token is, set or not. *)
Theorem cached_run_is_offline (token token' : option string)
  (baseId : string) (flags : CommandFlags) (trace : list event)
  (outcome : result (unit * Main)) :
  usableCache flags ->
  run (newMain token baseId flags) = (trace, outcome) ->
  (forall reqPath, ~ In (HttpRequest reqPath) trace)
  /\ (forall path json, ~ In (WriteJSON path json) trace)
  /\ fst (run (newMain token' baseId flags)) = trace
  /\ (forall e, outcome = Throw e
                <-> snd (run (newMain token' baseId flags)) = Throw e).
Proof.
  intros (file & [jb jt] & b & t & Hf & Hne & Hex & Hrd & Hb & Ht) H.
  simpl in Hb, Ht. subst jb jt.
  apply String.eqb_neq in Hne.
  destruct (run (newMain token' baseId flags)) as [trace' outcome'] eqn:H'.
  assert (Hboth : (run (newMain token baseId flags),
                   run (newMain token' baseId flags))
                  = ((trace, outcome), (trace', outcome')))
    by (rewrite H, H'; reflexivity).
  clear H H'. run_unfold_in Hboth.
  rewrite Hf in Hboth. run_unfold_in Hboth.
  rewrite Hne in Hboth. run_unfold_in Hboth.
  rewrite Hex in Hboth. run_unfold_in Hboth.
  rewrite Hrd in Hboth. run_unfold_in Hboth.
  repeat run_case Hboth.
  all: injection Hboth as <- <- <- <-.
  all: split; [intros reqPath Hin; not_in_trace Hin|].
  all: split; [intros path json Hin; not_in_trace Hin|].
  all: split; [reflexivity|].
  all: intros err; split; intros Herr;
    first [discriminate Herr | injection Herr as <-; reflexivity].
Qed.

(** X17. Without an access token [run] sends no request; and unless the
    cache file is usable it stops with the error about the token, having
    written neither the module nor the cache file. *)
Theorem no_token_no_request (token : option string) (baseId : string)
  (flags : CommandFlags) (trace : list event)
  (outcome : result (unit * Main)) :
  token = None \/ token = Some "" ->
  run (newMain token baseId flags) = (trace, outcome) ->
  (forall reqPath, ~ In (HttpRequest reqPath) trace)
  /\ (~ usableCache flags ->
      outcome = Throw (CLIError noTokenMessage)
      /\ (forall path data, ~ In (WriteFile path data) trace)
      /\ (forall path json, ~ In (WriteJSON path json) trace)).
Proof.
  intros Htoken H.
  destruct Htoken as [-> | ->]; run_cases H.
  all: try (simpl in *; discriminate).
  all: split; [intros reqPath Hin; not_in_trace Hin|].
  all: intros Hcache.
  all: try (exfalso; apply Hcache; do 4 eexists;
            repeat (split; [first [eassumption | reflexivity
                                  | apply String.eqb_neq; eassumption]|]);
            reflexivity).
  all: split; [reflexivity|].
  all: split; [intros path data Hin; not_in_trace Hin
              | intros path json Hin; not_in_trace Hin].
Qed.

(** X18. A run that succeeds has written the module, and, when the
    [jsoncache] flag names a file that was not a usable cache, the cache file
    as well, at the resolved path of the flag. *)
Theorem successful_run_writes (token : option string) (baseId : string)
  (flags : CommandFlags) (trace : list event) (u : unit) (this' : Main) :
  run (newMain token baseId flags) = (trace, Ok (u, this')) ->
  (exists path data,
     In (WriteFile path data) trace /\ writeFile env path data = Ok tt)
  /\ (forall file,
        flags_jsoncache flags = Some file -> file <> "" ->
        ~ usableCache flags ->
        exists json,
          In (WriteJSON (resolve env file) json) trace
          /\ writeJSON env (resolve env file) json = Ok tt).
Proof.
  remember (Ok (u, this')) as outcome eqn:Hout.
  intros H. run_cases H.
  all: try discriminate Hout.
  all: repeat match goal with x : unit |- _ => destruct x end.
  all: split;
    [do 2 eexists; split;
     [repeat (first [left; reflexivity | right]) | eassumption]|].
  all: intros file Hf Hne Hnc.
  all: try congruence.
  all: injection Hf as ->.
  all: try (exfalso; apply Hne; apply String.eqb_eq; assumption).
  all: try (exfalso; apply Hnc; do 4 eexists;
            repeat (split; [first [eassumption | reflexivity]|]);
            reflexivity).
  all: eexists; split;
    [repeat (first [left; reflexivity | right]) | eassumption].
Qed.

(** X19. [run] sends at most two requests: first the one for the list of
    bases, then the one for the tables of the requested base; and the second
    is sent only when the first was answered by a list of bases that holds
    the requested base. *)
Theorem requests_in_order (token : option string) (baseId : string)
  (flags : CommandFlags) (trace : list event)
  (outcome : result (unit * Main)) :
  run (newMain token baseId flags) = (trace, outcome) ->
  (requests trace = []
   \/ requests trace = [AIRTABLE_API_BASE_META_PATH]
   \/ requests trace = [AIRTABLE_API_BASE_META_PATH; tablesPath baseId])
  /\ (forall first second,
         requests trace = [first; second] ->
         exists tok b bases baseMeta,
           token = Some tok
           /\ httpRequest env AIRTABLE_API_BASE_META_PATH tok = Ok b
           /\ parseBaseList env b = Ok bases
           /\ getBaseMetadata bases baseId = Ok baseMeta).
Proof.
  intros H. run_cases H.
  all: split;
    [simpl; first [left; reflexivity | right; left; reflexivity
                  | right; right; reflexivity]|].
  all: intros first second Hreq; simpl in Hreq; try discriminate Hreq.
  all: do 4 eexists; repeat split; eassumption.
Qed.

End Generator.

(** * The properties on the sample base *)

#[local] Abbreviation sampleZodType := (getZodType Sample.getFieldEnumName).
#[local] Abbreviation sampleTsType := (getTsType Sample.printCellFormat).
#[local] Abbreviation sampleTsFieldType :=
  (tsFieldType Sample.pascalCase Sample.printCellFormat).
#[local] Abbreviation sampleZodLines :=
  (generateZodLines Sample.pascalCase Sample.getFieldEnumName
     Sample.hasAttachmentField Sample.hasCollaboratorField
     Sample.isReadonlyField).
#[local] Abbreviation sampleTSLines :=
  (generateTSLines Sample.pascalCase Sample.printCellFormat
     Sample.hasAttachmentField Sample.hasCollaboratorField
     Sample.isReadonlyField).
#[local] Abbreviation sampleZodSchemas :=
  (generateZodSchemas Sample.pascalCase Sample.getFieldEnumName
     Sample.hasAttachmentField Sample.hasCollaboratorField
     Sample.isReadonlyField).
#[local] Abbreviation sampleTSDefinitions :=
  (generateTSDefinitions Sample.pascalCase Sample.printCellFormat
     Sample.hasAttachmentField Sample.hasCollaboratorField
     Sample.isReadonlyField).

Lemma lookup_outside_enumeration : ~ inEnumeration "lookup".
Proof.
  apply lookupTag_none_iff. reflexivity.
Qed.

(** C3 on a field tagged [lookup], which no [case] handles. *)
Lemma unrecognized_field_type_witness :
  ~ inEnumeration "lookup"
  /\ sampleZodType Sample.Orders (Sample.plainField "Old" "lookup")
     = Throw (Error "Unrecognized field type: lookup (on field 'Old')")
  /\ sampleTsType (Sample.plainField "Old" "lookup") Sample.tsOpts
     = Throw (Error "Unrecognized field type: lookup (on field 'Old')").
Proof.
  split; [exact lookup_outside_enumeration|].
  exact (proj1 (unrecognized_field_type Sample.printCellFormat
                  Sample.getFieldEnumName Sample.Orders
                  (Sample.plainField "Old" "lookup") Sample.tsOpts)
           lookup_outside_enumeration).
Defined.

(** C9 on three fields: a formula whose derived result type is [number], a
    formula whose derived result type is no key of the cell-format table,
    and a creation time without options. *)
Lemma computed_field_result_type_witness :
  In "formula" computedDerivedTags
  /\ sampleTsType (Sample.derivedField "Total" "formula" "number")
       Sample.tsOpts
     = Ok "number"
  /\ sampleTsType (Sample.derivedField "Total" "formula" "bogus")
       Sample.tsOpts
     = Throw TypeError
  /\ sampleTsType (Sample.plainField "Created" "createdTime") Sample.tsOpts
     = Ok "string".
Proof.
  assert (H : In "formula" computedDerivedTags) by (simpl; auto).
  split; [exact H|]. split; [|split].
  - exact (proj1 (proj1 (computed_field_result_type Sample.printCellFormat
                           (Sample.derivedField "Total" "formula" "number")
                           Sample.tsOpts H) _ _ "number" eq_refl eq_refl
                    eq_refl) number eq_refl).
  - refine (proj2 (proj1 (computed_field_result_type Sample.printCellFormat
                            (Sample.derivedField "Total" "formula" "bogus")
                            Sample.tsOpts H) _ _ "bogus" eq_refl eq_refl
                     eq_refl) _).
    apply lookupTag_none_iff. reflexivity.
  - assert (Hc : In (field_type (Sample.plainField "Created" "createdTime"))
                   computedDerivedTags) by (simpl; auto).
    destruct (proj2 (computed_field_result_type Sample.printCellFormat
                       (Sample.plainField "Created" "createdTime")
                       Sample.tsOpts Hc)
                (or_introl eq_refl)) as [tag [Htag Hts]].
    injection Htag as <-. exact Hts.
Defined.

(** C4 on a number field of precision zero. *)
Lemma numeric_mapping_witness :
  In "number" precisionTags
  /\ sampleZodType Sample.Orders (Sample.numberField "Quantity" 0)
     = Ok "z.number().int().positive()".
Proof.
  assert (H : In (field_type (Sample.numberField "Quantity" 0))
                precisionTags) by (simpl; auto).
  split; [exact H|].
  exact (proj1 (proj1 (numeric_mapping Sample.printCellFormat
                         Sample.getFieldEnumName Sample.Orders
                         (Sample.numberField "Quantity" 0) Sample.tsOpts) H)
           _ eq_refl eq_refl).
Defined.

(** The static-typing mapper gives a number field of precision zero and one
    of precision two the same type, and a rating that type as well: the claim
    C4 fails for this dialect. *)
Lemma numeric_mapping_counterexample :
  sampleTsType (Sample.numberField "Quantity" 0) Sample.tsOpts
  = sampleTsType (Sample.numberField "Quantity" 2) Sample.tsOpts
  /\ sampleTsType (Sample.numberField "Quantity" 0) Sample.tsOpts
     = Ok "number"
  /\ sampleTsType (Sample.plainField "Stars" "rating") Sample.tsOpts
     = Ok "number".
Proof. repeat split. Qed.

(** C8 at a single-choice field whose choice list is empty.  The
    static-typing mapper returns the empty string, so the entry of the field
    has no type expression after the colon; the schema-validator mapper
    returns the name of the field's enum for the same field. *)
Theorem choice_field_without_choices :
  inEnumeration "singleSelect"
  /\ sampleTsType (Sample.selectField "Status" "singleSelect" [])
       Sample.tsOpts
     = Ok ""
  /\ tsFieldLine Sample.pascalCase Sample.printCellFormat
       Sample.isReadonlyField true [Sample.Orders] Sample.tsOpts
       (Sample.selectField "Status" "singleSelect" [])
     = Ok "  'Status'?: "
  /\ sampleZodType Sample.Orders
       (Sample.selectField "Status" "singleSelect" [])
     = Ok "OrdersStatus".
Proof.
  split; [unfold inEnumeration; simpl; auto 40|]. repeat split.
Qed.

(** C1 on the link from the orders to the customers. *)
Lemma reference_field_type_witness :
  field_type (Sample.linkField "Customer" "tblCustomers")
  = "multipleRecordLinks"
  /\ sampleTsFieldType true [Sample.Customers; Sample.Orders]
       (Sample.linkField "Customer" "tblCustomers") Sample.tsOpts
     = Ok "Array<CustomersId>".
Proof.
  split; [reflexivity|].
  refine (proj1 (reference_field_type Sample.pascalCase
                   Sample.printCellFormat Sample.getFieldEnumName
                   [Sample.Customers; Sample.Orders] Sample.Orders
                   (Sample.linkField "Customer" "tblCustomers") _
                   Sample.tsOpts eq_refl eq_refl)
            Sample.Customers _ eq_refl _).
  - now left.
  - intros other [<-|[<-|[]]] Hid; [reflexivity | discriminate Hid].
Defined.

(** In the schema-validator dialect the same link, whose target is in the
    generation set, maps to an array of plain strings that names no table:
    the claim C1 fails for this dialect. *)
Lemma reference_field_type_counterexample :
  In Sample.Customers [Sample.Customers; Sample.Orders]
  /\ table_id Sample.Customers = "tblCustomers"
  /\ sampleZodType Sample.Orders (Sample.linkField "Customer" "tblCustomers")
     = Ok "z.array(z.string())"
  /\ contains "Customers" "z.array(z.string())" = false.
Proof. repeat split. now left. Qed.

(** C6 at an allow-list that names the orders table by id and by name: both
    entries resolve to a fetched table, and selection aborts with the error
    that says that not all tables could be found. *)
Theorem resolved_allowlist_rejected :
  In Sample.Orders [Sample.Customers; Sample.Orders]
  /\ resolvesTo "tblOrders" Sample.Orders = true
  /\ resolvesTo "Orders" Sample.Orders = true
  /\ getTableMetadata [Sample.Customers; Sample.Orders]
       (Some ["tblOrders"; "Orders"])
     = Throw (CLIError "Could not find all tables:

Requested: tblOrders, Orders
Found: Orders").
Proof. repeat split. right. now left. Qed.

(** C2 on the sample base, in both dialects: both assemblers return a
    text of the stated form, in which the automatic number of the orders, a
    readonly field, carries no marker and the quantity carries it. *)
Lemma optionality_marker_witness :
  (exists out blocks,
      sampleZodSchemas Sample.Shop [Sample.Customers; Sample.Orders] = Ok out
      /\ out
         = join newline
             (zodPreamble Sample.hasAttachmentField
                Sample.hasCollaboratorField
                [Sample.Customers; Sample.Orders] +++ concat blocks)
      /\ Forall2 (zodBlockOf Sample.pascalCase Sample.getFieldEnumName
                    Sample.isReadonlyField)
           [Sample.Customers; Sample.Orders] blocks)
  /\ (exists out blocks,
         sampleTSDefinitions {| flag_controllers := false; flag_id := true |}
           Sample.Shop [Sample.Customers; Sample.Orders] = Ok out
         /\ out
            = join newline
                (tsPreamble Sample.hasAttachmentField
                   Sample.hasCollaboratorField false
                   [Sample.Customers; Sample.Orders] +++ concat blocks
                 +++ [])
         /\ Forall2 (tsBlockOf Sample.pascalCase Sample.printCellFormat
                       Sample.isReadonlyField false true
                       [Sample.Customers; Sample.Orders])
              [Sample.Customers; Sample.Orders] blocks)
  /\ (exists lines,
         sampleZodLines [Sample.Orders] = Ok lines
         /\ In "  'Number': z.number().int().positive()," lines
         /\ In "  'Quantity': z.number().int().positive().optional()," lines)
  /\ (exists lines,
         sampleTSLines {| flag_controllers := false; flag_id := true |}
           Sample.Shop [Sample.Orders] = Ok lines
         /\ In "  'Number': number" lines
         /\ In "  'Quantity'?: number" lines).
Proof.
  pose proof (optionality_marker Sample.pascalCase Sample.printCellFormat
                Sample.getFieldEnumName Sample.hasAttachmentField
                Sample.hasCollaboratorField Sample.isReadonlyField
                [Sample.Customers; Sample.Orders]) as [Hzod Hts].
  split; [|split; [|split]].
  - destruct (sampleZodSchemas Sample.Shop [Sample.Customers; Sample.Orders])
      as [out|e] eqn:E; [|vm_compute in E; discriminate E].
    destruct (proj1 (Hzod Sample.Shop out) E) as [blocks [Hout Hblocks]].
    exists out, blocks. auto.
  - destruct (sampleTSDefinitions
                {| flag_controllers := false; flag_id := true |}
                Sample.Shop [Sample.Customers; Sample.Orders])
      as [out|e] eqn:E; [|vm_compute in E; discriminate E].
    destruct (proj1 (Hts {| flag_controllers := false; flag_id := true |}
                       Sample.Shop out) E) as [blocks [Hout Hblocks]].
    exists out, blocks. auto.
  - eexists. split; [reflexivity|].
    split; vm_compute; repeat (first [left; reflexivity | right]).
  - eexists. split; [reflexivity|].
    split; vm_compute; repeat (first [left; reflexivity | right]).
Defined.

(** C5 on the sample base, in the schema-validator dialect: two tables with
    an attachment field, one attachment fragment. *)
Lemma shared_shapes_witness :
  anyField Sample.isAttachmentField [Sample.Customers; Sample.Orders]
  /\ exists out blocks,
       sampleZodSchemas Sample.Shop [Sample.Customers; Sample.Orders]
       = Ok out
       /\ out
          = join newline
              (zodPreamble Sample.hasAttachmentField
                 Sample.hasCollaboratorField
                 [Sample.Customers; Sample.Orders] +++ concat blocks)
       /\ occurrences AttachmentZodTmpl
            (zodPreamble Sample.hasAttachmentField
               Sample.hasCollaboratorField
               [Sample.Customers; Sample.Orders]) = 1
       /\ occurrences AttachmentZodTmpl (concat blocks) = 0.
Proof.
  assert (Hany : anyField Sample.isAttachmentField
                   [Sample.Customers; Sample.Orders]).
  { exists Sample.Customers, (Sample.plainField "Photos" "multipleAttachments").
    split; [now left|]. split; [right; now left | reflexivity]. }
  split; [exact Hany|].
  destruct (sampleZodSchemas Sample.Shop [Sample.Customers; Sample.Orders])
    as [out|e] eqn:E; [|vm_compute in E; discriminate E].
  destruct (proj1 (shared_shapes Sample.pascalCase Sample.printCellFormat
                     Sample.getFieldEnumName Sample.hasAttachmentField
                     Sample.hasCollaboratorField Sample.isReadonlyField
                     Sample.isAttachmentField Sample.isCollaboratorField
                     [Sample.Customers; Sample.Orders]
                     (fun _ => eq_refl) (fun _ => eq_refl))
              Sample.Shop out E)
    as [blocks [_ [Hout [[Hrest [Hone _]] _]]]].
  exists out, blocks. auto.
Defined.

(** With the controllers flag the static-typing assembler pushes no
    attachment fragment although a selected table has an attachment field:
    the claim C5 fails for such a run. *)
Lemma shared_shapes_counterexample :
  Sample.hasAttachmentField (allFields [Sample.Customers]) = true
  /\ exists lines,
       sampleTSLines {| flag_controllers := true; flag_id := true |}
         Sample.Shop [Sample.Customers] = Ok lines
       /\ occurrences getAdditionalTsForAttachments lines = 0.
Proof.
  split; [reflexivity|]. eexists. split; [reflexivity|]. reflexivity.
Qed.


(** C10 at a base with one attachment field: the entry of the field refers
    to [AirtableAttachmentSchema], the only shape fragment pushed is
    [AttachmentZodTmpl], and neither shape fragment mentions that name. *)
Theorem attachment_schema_undeclared :
  sampleZodLines [Sample.Customers]
  = Ok ["import { z } from 'zod'"; "";
        AttachmentZodTmpl; "";
        "export const CustomersSchema = z.object({";
        "  'Name': z.string().optional(),";
        "  'Photos': z.array(AirtableAttachmentSchema).optional(),";
        "  'Created': z.coerce.date(),";
        "})";
        "export type Customers = z.infer<typeof CustomersSchema>";
        ""]
  /\ contains "AirtableAttachmentSchema" AttachmentZodTmpl = false
  /\ contains "AirtableAttachmentSchema" CollaboratorZodTmpl = false.
Proof. repeat split. Qed.

(** * The further properties on the sample base *)

Lemma sample_accepts (field : FieldMetadata) (s : string) :
  sampleTsType field Sample.tsOpts = Ok s -> tsTypeAccepts field.
Proof.
  intros H. apply (getTsType_ok_iff Sample.printCellFormat field Sample.tsOpts).
  now exists s.
Qed.

(** X2 on the sample base: the allow-list in either order. *)
Lemma allowlist_order_irrelevant_witness :
  getTableMetadata [Sample.Customers; Sample.Orders]
    (Some ["tblOrders"; "Customers"])
  = Ok [Sample.Customers; Sample.Orders].
Proof.
  refine (proj1 (proj1 (allowlist_order_irrelevant
                          [Sample.Customers; Sample.Orders]
                          ["Customers"; "tblOrders"]
                          ["tblOrders"; "Customers"] _ eq_refl)
                   [Sample.Customers; Sample.Orders]) eq_refl).
  intros entry. simpl. split; intros [H|[H|[]]]; auto.
Defined.

(** X5 on a table whose second and third fields have unknown tags: in both
    dialects the second is the one reported. *)
Lemma first_unrecognized_field_reported_witness :
  sampleZodSchemas Sample.Shop
    [Sample.Customers; Sample.Legacy; Sample.Orders]
  = Throw (Error "Unrecognized field type: lookup (on field 'Old')")
  /\ sampleTSDefinitions {| flag_controllers := false; flag_id := true |}
       Sample.Shop [Sample.Customers; Sample.Legacy; Sample.Orders]
     = Throw (Error "Unrecognized field type: lookup (on field 'Old')").
Proof.
  destruct (first_unrecognized_field_reported Sample.pascalCase
              Sample.printCellFormat Sample.getFieldEnumName
              Sample.hasAttachmentField Sample.hasCollaboratorField
              Sample.isReadonlyField
              {| flag_controllers := false; flag_id := true |}
              Sample.Shop [Sample.Customers] [Sample.Orders]
              Sample.Legacy [Sample.plainField "Title" "singleLineText"]
              [Sample.plainField "Older" "attachment"]
              (Sample.plainField "Old" "lookup") eq_refl
              lookup_outside_enumeration) as [Hzod Hts].
  split.
  - apply Hzod.
    + intros t f [<-|[]] [<-|[<-|[<-|[]]]];
        eapply sample_accepts; reflexivity.
    + intros f [<-|[<-|[<-|[]]]] Hsel; discriminate Hsel.
    + intros f [<-|[]]. unfold inEnumeration. simpl. auto 40.
  - apply Hts.
    + intros t f [<-|[]] [<-|[<-|[<-|[]]]];
        (split; [eapply sample_accepts; reflexivity
                | intros _ Htag; discriminate Htag]).
    + intros f [<-|[]].
      split; [eapply sample_accepts; reflexivity
             | intros _ Htag; discriminate Htag].
Defined.


(** X7 on the sample base: the link to the customers is typed by a declared
    identifier type. *)
Lemma identifier_types_declared_witness :
  exists out lines,
    sampleTSDefinitions {| flag_controllers := false; flag_id := true |}
      Sample.Shop [Sample.Customers; Sample.Orders] = Ok out
    /\ out = join newline lines
    /\ referenceDeclared Sample.pascalCase [Sample.Customers; Sample.Orders]
         (Sample.linkField "Customer" "tblCustomers") lines.
Proof.
  destruct (sampleTSDefinitions
              {| flag_controllers := false; flag_id := true |}
              Sample.Shop [Sample.Customers; Sample.Orders])
    as [out|e] eqn:E; [|vm_compute in E; discriminate E].
  destruct (identifier_types_declared Sample.pascalCase
              Sample.printCellFormat Sample.hasAttachmentField
              Sample.hasCollaboratorField Sample.isReadonlyField
              {| flag_controllers := false; flag_id := true |}
              Sample.Shop [Sample.Customers; Sample.Orders] out eq_refl E)
    as [lines [Hout H]].
  exists out, lines. split; [reflexivity | split; [exact Hout|]].
  apply (H Sample.Orders); [right; now left | | reflexivity].
  simpl. auto 10.
Defined.

(** X8 on the sample base. *)
Lemma last_table_with_linked_id_wins_witness :
  sampleTsFieldType true [Sample.Customers; Sample.Orders]
    (Sample.linkField "Customer" "tblCustomers") Sample.tsOpts
  = Ok "Array<CustomersId>".
Proof.
  refine (last_table_with_linked_id_wins Sample.pascalCase
            Sample.printCellFormat [] [Sample.Orders] Sample.Customers
            (Sample.linkField "Customer" "tblCustomers") _ Sample.tsOpts
            eq_refl eq_refl eq_refl _).
  intros t [<-|[]] H. discriminate H.
Defined.


(** * The typed table *)

Section TypedTableFacts.

Context {Cell World Query : Type}.

Import TypedTable.

Lemma withId_rowOf (id : value Cell) (fields : option (object Cell)) :
  rowOf id fields (withId id fields).
Proof.
  unfold rowOf, withId, spread, idObject. destruct fields as [fields|].
  - split.
    + intros key Hkey. destruct (fields key) as [v|] eqn:E; [reflexivity|].
      rewrite (proj2 (String.eqb_neq key "_id") Hkey). reflexivity.
    + destruct (fields "_id"); reflexivity.
  - split; [|reflexivity]. intros key Hkey.
    rewrite (proj2 (String.eqb_neq key "_id") Hkey). reflexivity.
Qed.

(** X10. [find] rejects exactly when the library's [find] rejects, resolves
    to [undefined] exactly when the library returns no record or a record
    without fields, and otherwise resolves to a row that holds every field of
    the record, with [_id] bound to the requested id unless the record has a
    field named [_id], which then takes its place.  The remote base is left
    as the library's call left it. *)
Theorem find_outcome (this : TypedTable Cell World Query) (id : string)
  (w w' : World) :
  (forall e,
      find this id w = (Throw e, w')
      <-> at_find (table this) id w = (Throw e, w'))
  /\ (find this id w = (Ok None, w')
      <-> at_find (table this) id w = (Ok None, w')
          \/ exists result,
               at_find (table this) id w = (Ok (Some result), w')
               /\ record_fields result = None)
  /\ (forall row,
         find this id w = (Ok (Some row), w') ->
         exists result fields,
           at_find (table this) id w = (Ok (Some result), w')
           /\ record_fields result = Some fields
           /\ rowOf (VString id) (Some fields) row).
Proof.
  unfold find, bindRemote, retRemote.
  destruct (at_find (table this) id w) as [[[result|]|e0] w0].
  - destruct (record_fields result) as [fields|] eqn:Hf.
    + split; [|split].
      * intros e. split; intros H; discriminate H.
      * split; [intros H; discriminate H|].
        intros [H|[r [H Hr]]]; [discriminate H|].
        injection H as <- _. congruence.
      * intros row [= <- <-]. exists result, fields.
        split; [reflexivity | split; [exact Hf | apply withId_rowOf]].
    + split; [|split].
      * intros e. split; intros H; discriminate H.
      * split.
        -- intros [= <-]. right. now exists result.
        -- intros [H|[r [[= <- <-] _]]]; [discriminate H | reflexivity].
      * intros row H. discriminate H.
  - split; [|split].
    + intros e. split; intros H; discriminate H.
    + split.
      * intros [= <-]. now left.
      * intros [[= <-]|[r [H _]]]; [reflexivity | discriminate H].
    + intros row H. discriminate H.
  - split; [|split].
    + intros e. split; intros [= -> ->]; reflexivity.
    + split; [intros H; discriminate H|].
      intros [H|[r [H _]]]; discriminate H.
    + intros row H. discriminate H.
Qed.

(** X11. [select] resolves to one row per record the library returns, in the
    same order, each holding the record's fields and, as [_id], the record's
    id (unless a field named [_id] takes its place); it rejects exactly when
    the library does. *)
Theorem select_outcome (this : TypedTable Cell World Query)
  (options : option Query) (w w' : World) :
  (forall rows,
      select this options w = (Ok rows, w') ->
      exists records,
        at_select (table this) options w = (Ok records, w')
        /\ Forall2 (fun r row =>
                      rowOf (VString (record_id r)) (record_fields r) row)
                   records rows)
  /\ (forall e,
         select this options w = (Throw e, w')
         <-> at_select (table this) options w = (Throw e, w')).
Proof.
  unfold select, bindRemote, retRemote.
  destruct (at_select (table this) options w) as [[records|e0] w0].
  - split.
    + intros rows [= <- <-]. exists records. split; [reflexivity|].
      induction records as [|r records IH]; simpl; constructor;
        [apply withId_rowOf | exact IH].
    + intros e. split; intros H; discriminate H.
  - split; [intros rows H; discriminate H|].
    intros e. split; intros [= -> ->]; reflexivity.
Qed.

(** X12. [update] never sends the property [_id] as a field: the library's
    [update] is called with the value of [_id] as the record id and with a
    payload that has no [_id] and agrees with the argument on every other
    property.  The row it resolves to holds the fields the library returns,
    with [_id] bound to that same id unless they contain a field [_id]. *)
Theorem update_outcome (this : TypedTable Cell World Query)
  (recordData : object Cell) (w : World) :
  exists id payload,
    id = match recordData "_id" with
         | Some v => v
         | None => VUndefined
         end
    /\ payload "_id" = None
    /\ (forall key, key <> "_id" -> payload key = recordData key)
    /\ match at_update (table this) id payload w with
       | (Ok result, w') =>
           exists row,
             update this recordData w = (Ok row, w')
             /\ rowOf id (record_fields result) row
       | (Throw e, w') => update this recordData w = (Throw e, w')
       end.
Proof.
  exists (destructuredId recordData), (destructuredRest recordData).
  split; [reflexivity|]. split; [reflexivity|]. split.
  - intros key Hkey. unfold destructuredRest.
    rewrite (proj2 (String.eqb_neq key "_id") Hkey). reflexivity.
  - unfold update, bindRemote, retRemote.
    destruct (at_update (table this) (destructuredId recordData)
                (destructuredRest recordData) w) as [[result|e] w'].
    + eexists. split; [reflexivity | apply withId_rowOf].
    + reflexivity.
Qed.

(** X13. A cached query asks the remote base only while it holds no rows.
    After a [fetch] that resolved, the rows are kept: every later [fetch]
    resolves to the same rows and leaves the remote base untouched, whatever
    its state.  A [fetch] rejects only when nothing was cached and the
    table's [select] rejected, and then nothing is cached.  After [flush] the
    next [fetch] is the table's [select] on the stored query again. *)
Theorem cached_query_fetch (this : CachedQuery Cell World Query)
  (w w' : World) :
  (forall rows this',
      fetch this w = (Ok (rows, this'), w') ->
      cached this' = Some rows
      /\ cq_query this' = cq_query this
      /\ forall w2, fetch this' w2 = (Ok (rows, this'), w2))
  /\ (forall e,
         fetch this w = (Throw e, w') ->
         cached this = None
         /\ select (cq_table this) (Some (cq_query this)) w = (Throw e, w'))
  /\ (forall rows,
         (exists this', fetch (flush this) w = (Ok (rows, this'), w'))
         <-> select (cq_table this) (Some (cq_query this)) w = (Ok rows, w')).
Proof.
  split; [|split].
  - intros rows this'. unfold fetch.
    destruct (cached this) as [c|] eqn:Hc.
    + unfold retRemote. intros [= <- <- <-]. rewrite Hc. auto.
    + unfold bindRemote, retRemote.
      destruct (select (cq_table this) (Some (cq_query this)) w)
        as [[rows0|e0] w0]; [|discriminate].
      intros [= <- <- <-]. simpl. auto.
  - intros e. unfold fetch. destruct (cached this) as [c|].
    + unfold retRemote. discriminate.
    + unfold bindRemote, retRemote.
      destruct (select (cq_table this) (Some (cq_query this)) w)
        as [[rows0|e0] w0]; [discriminate|].
      intros [= <- <-]. auto.
  - intros rows. unfold fetch, flush, bindRemote, retRemote. simpl.
    destruct (select (cq_table this) (Some (cq_query this)) w)
      as [[rows0|e0] w0].
    + split.
      * intros [this' [= <- _ <-]]. reflexivity.
      * intros [= <- <-]. eexists. reflexivity.
    + split; [intros [this' H]; discriminate H | discriminate].
Qed.

End TypedTableFacts.

(** X13 on the sample remote table: the first [fetch] asks the remote base,
    the second, five calls later, returns the rows of the first. *)
Lemma cached_query_fetch_witness :
  exists rows this',
    TypedTable.fetch (TypedTable.cache SampleRemote.people tt) 0
    = (Ok (rows, this'), 1)
    /\ TypedTable.fetch this' 6 = (Ok (rows, this'), 6).
Proof.
  eexists. eexists. split; [reflexivity|].
  exact (proj2 (proj2 (proj1 (cached_query_fetch
                               (TypedTable.cache SampleRemote.people tt) 0 1)
                         _ _ eq_refl)) 6).
Defined.

(** * The command on a sample environment

    Documents are their raw text.  Every request is answered with its own
    path, reading the cache file gives two stored documents, every write
    succeeds, and the documents parse to the sample base and its customers
    and orders; [cached] says whether the cache file exists. *)

#[local] Abbreviation sampleCache :=
  {| cache_baseMetadata := Some "bases"; cache_tableMetadata := Some "tables" |}.

#[local] Abbreviation sampleEnv cached :=
  (Build_Env string
     (fun _ => cached)
     (fun _ => Ok sampleCache)
     (fun reqPath _ => Ok reqPath)
     (fun _ => Ok tt)
     (fun _ _ => Ok tt)
     (fun _ _ => Ok tt)
     (fun file => "/cwd/" ++ file)
     (fun _ => Ok [Sample.Shop])
     (fun _ => Ok [Sample.Customers; Sample.Orders])).

#[local] Abbreviation sampleFlags jsoncache :=
  {| flags_jsoncache := jsoncache; flags_output := Some "shop.ts";
     flags_zod := true; flags_tables := Some "Orders,Customers";
     flags_id := true; flags_controllers := false |}.

#[local] Abbreviation sampleRun cached token jsoncache :=
  (run Sample.pascalCase Sample.printCellFormat Sample.getFieldEnumName
     Sample.hasAttachmentField Sample.hasCollaboratorField
     Sample.isReadonlyField string (fun name => name) "/meta/bases"
     (sampleEnv cached) (newMain string token "appShop" (sampleFlags jsoncache))).

(** X14 on a run with an access token and no cache file: the module is
    written, and whatever is written is the schema-validator module of the
    two selected tables, at the path of the [output] flag. *)
Lemma run_writes_complete_module_witness :
  (exists data,
      In (WriteFile string "/cwd/shop.ts" data)
        (fst (sampleRun false (Some "key") None)))
  /\ forall path data,
       In (WriteFile string path data)
         (fst (sampleRun false (Some "key") None)) ->
       path = "/cwd/shop.ts"
       /\ sampleZodSchemas Sample.Shop [Sample.Customers; Sample.Orders]
          = Ok data.
Proof.
  destruct (run_writes_complete_module Sample.pascalCase
              Sample.printCellFormat Sample.getFieldEnumName
              Sample.hasAttachmentField Sample.hasCollaboratorField
              Sample.isReadonlyField string (fun name => name) "/meta/bases"
              (sampleEnv false) (Some "key") "appShop" (sampleFlags None)
              (fst (sampleRun false (Some "key") None))
              (snd (sampleRun false (Some "key") None)))
    as (_ & Hwrite & _).
  - vm_compute. reflexivity.
  - split.
    + remember (fst (sampleRun false (Some "key") None)) as trace eqn:Htrace.
      vm_compute in Htrace. subst trace. eexists.
      repeat (first [left; reflexivity | right]).
    + intros path data Hin.
      destruct (Hwrite path data Hin)
        as (b & t & bases & fetched & baseMeta & tableMeta & _ & Hpb & Hpt
            & Hgb & Hgt & Hgen & ->).
      injection Hpb as <-. injection Hpt as <-.
      injection Hgb as <-. injection Hgt as <-.
      split; [reflexivity | exact Hgen].
Defined.

(** X15 on a run that fetches and fills the cache file. *)
Lemma cache_file_written_after_module_witness :
  exists before after out data,
    fst (sampleRun false (Some "key") (Some "cache.json"))
    = before +++ WriteFile string out data :: after
    /\ In (WriteJSON string "/cwd/cache.json"
             {| cache_baseMetadata := Some "/meta/bases";
                cache_tableMetadata := Some "/meta/bases/appShop/tables" |})
          after.
Proof.
  destruct (cache_file_written_after_module Sample.pascalCase
              Sample.printCellFormat Sample.getFieldEnumName
              Sample.hasAttachmentField Sample.hasCollaboratorField
              Sample.isReadonlyField string (fun name => name) "/meta/bases"
              (sampleEnv false) (Some "key") "appShop"
              (sampleFlags (Some "cache.json"))
              (fst (sampleRun false (Some "key") (Some "cache.json")))
              (snd (sampleRun false (Some "key") (Some "cache.json")))
              "/cwd/cache.json"
              {| cache_baseMetadata := Some "/meta/bases";
                 cache_tableMetadata := Some "/meta/bases/appShop/tables" |})
    as (_ & _ & _ & _ & _ & _ & _ & _ & _ & _ & H).
  - vm_compute. reflexivity.
  - vm_compute. repeat (first [left; reflexivity | right]).
  - exact H.
Defined.

(** X16 on a run without an access token over an existing cache file. *)
Lemma cached_run_is_offline_witness :
  usableCache string (sampleEnv true) (sampleFlags (Some "cache.json"))
  /\ (forall reqPath,
         ~ In (HttpRequest string reqPath)
             (fst (sampleRun true None (Some "cache.json"))))
  /\ (forall path json,
         ~ In (WriteJSON string path json)
             (fst (sampleRun true None (Some "cache.json"))))
  /\ fst (sampleRun true (Some "key") (Some "cache.json"))
     = fst (sampleRun true None (Some "cache.json")).
Proof.
  assert (Hcache : usableCache string (sampleEnv true)
                     (sampleFlags (Some "cache.json"))).
  { exists "cache.json", sampleCache, "bases", "tables".
    repeat split. discriminate. }
  split; [exact Hcache|].
  destruct (cached_run_is_offline Sample.pascalCase Sample.printCellFormat
              Sample.getFieldEnumName Sample.hasAttachmentField
              Sample.hasCollaboratorField Sample.isReadonlyField string
              (fun name => name) "/meta/bases" (sampleEnv true) None
              (Some "key") "appShop" (sampleFlags (Some "cache.json"))
              (fst (sampleRun true None (Some "cache.json")))
              (snd (sampleRun true None (Some "cache.json")))
              Hcache)
    as (Hreq & Hjson & Htrace & _).
  - vm_compute. reflexivity.
  - auto.
Defined.

(** X17 on a run with neither an access token nor a cache file. *)
Lemma no_token_no_request_witness :
  ~ usableCache string (sampleEnv false) (sampleFlags None)
  /\ (forall reqPath,
         ~ In (HttpRequest string reqPath) (fst (sampleRun false None None)))
  /\ snd (sampleRun false None None) = Throw (CLIError noTokenMessage)
  /\ (forall path data,
         ~ In (WriteFile string path data) (fst (sampleRun false None None))).
Proof.
  assert (Hcache : ~ usableCache string (sampleEnv false) (sampleFlags None)).
  { intros (file & json & b & t & Hfile & _). discriminate Hfile. }
  split; [exact Hcache|].
  destruct (no_token_no_request Sample.pascalCase Sample.printCellFormat
              Sample.getFieldEnumName Sample.hasAttachmentField
              Sample.hasCollaboratorField Sample.isReadonlyField string
              (fun name => name) "/meta/bases" (sampleEnv false) None
              "appShop" (sampleFlags None)
              (fst (sampleRun false None None))
              (snd (sampleRun false None None)) (or_introl eq_refl))
    as (Hreq & Hrest).
  - vm_compute. reflexivity.
  - destruct (Hrest Hcache) as (Hout & Hfile & _). auto.
Defined.

(** X18 on a run that fetches and fills the cache file. *)
Lemma successful_run_writes_witness :
  (exists path data,
     In (WriteFile string path data)
       (fst (sampleRun false (Some "key") (Some "cache.json"))))
  /\ exists json,
       In (WriteJSON string "/cwd/cache.json" json)
         (fst (sampleRun false (Some "key") (Some "cache.json"))).
Proof.
  destruct (successful_run_writes Sample.pascalCase Sample.printCellFormat
              Sample.getFieldEnumName Sample.hasAttachmentField
              Sample.hasCollaboratorField Sample.isReadonlyField string
              (fun name => name) "/meta/bases" (sampleEnv false) (Some "key")
              "appShop" (sampleFlags (Some "cache.json"))
              (fst (sampleRun false (Some "key") (Some "cache.json"))) tt
              {| accessToken := Some "key"; this_baseId := "appShop";
                 this_flags := sampleFlags (Some "cache.json");
                 baseMetadata := Some "/meta/bases";
                 tableMetadata := Some "/meta/bases/appShop/tables";
                 shouldWriteJson := true |})
    as ((path & data & Hin & _) & Hjson).
  - vm_compute. reflexivity.
  - split; [now exists path, data|].
    destruct (Hjson "cache.json" eq_refl) as (json & Hin' & _).
    + discriminate.
    + intros (file & cache & b & t & _ & _ & Hexists & _).
      discriminate Hexists.
    + now exists json.
Defined.

(** X19 on a run for a base that the list of bases does not hold: one
    request. *)
Lemma requests_in_order_witness :
  requests string
    (fst (run Sample.pascalCase Sample.printCellFormat
            Sample.getFieldEnumName Sample.hasAttachmentField
            Sample.hasCollaboratorField Sample.isReadonlyField string
            (fun name => name) "/meta/bases" (sampleEnv false)
            (newMain string (Some "key") "appOther" (sampleFlags None))))
  = ["/meta/bases"].
Proof.
  destruct (requests_in_order Sample.pascalCase Sample.printCellFormat
              Sample.getFieldEnumName Sample.hasAttachmentField
              Sample.hasCollaboratorField Sample.isReadonlyField string
              (fun name => name) "/meta/bases" (sampleEnv false) (Some "key")
              "appOther" (sampleFlags None) _
              (Throw (CLIError "Could not find base with ID appOther"))
              eq_refl)
    as ([H|[H|H]] & _); [discriminate H | exact H | discriminate H].
Defined.
